(** * docrun: a parallel Docker runner (CLI and GUI) and a Fibonacci demo

    Shallow embedding of [docker_runner.py], [docker_runner_gui.py] and
    [testit.py].

    Conventions.
    - A Python [str] is a [string]; every [ascii] stands for the code
      point of the same number (the Latin-1 range of Python's [str]).
    - A Python [int] is a [Z].
    - A computation that may raise is a value of [Res]; a computation
      that also prints, opens dialogs or launches processes is a value
      of [Py]: the trace of its effects, in order, and its result.
    - The external world (the docker launcher and the scheduling of the
      worker threads) is an explicit argument: [Env] gives what each
      launched process does, and a completion order lists the futures in
      the order [as_completed] yields them. [Full.World] adds what
      [os.getcwd()] does for each task, and a start order lists the
      tasks in the order in which the workers start them. *)

From Stdlib Require Import ZArith List String Ascii Bool Lia Permutation Sorted.
From Stdlib Require Import DecimalString OrderedTypeEx.
From Equations Require Import Equations.
Import ListNotations.

Local Open Scope string_scope.
Local Open Scope list_scope.
Local Open Scope Z_scope.

(* ------------------------------------------------------------------ *)
(** ** Exceptions and results *)

Inductive Exn : Type :=
| NameError (name : string)
| ValueError (msg : string)
| TypeError (msg : string)
| IndexError (msg : string)
| CalledProcessError (returncode : Z) (cmd : list string) (out err : string)
| OSError (msg : string)
| SystemExit (code : Z).

Inductive Res (A : Type) : Type :=
| Ok (a : A)
| Raise (e : Exn).
Arguments Ok {A} a.
Arguments Raise {A} e.

Definition rbind {A B} (m : Res A) (k : A -> Res B) : Res B :=
  match m with
  | Ok a => k a
  | Raise e => Raise e
  end.

Declare Scope res_scope.
Delimit Scope res_scope with res.
Notation "x <- m ;; k" := (rbind m (fun x => k))
  (at level 100, m at next level, right associativity) : res_scope.

(** [isinstance(e, Exception)]: everything but [SystemExit], which
    derives from [BaseException] only. *)
Definition is_Exception (e : Exn) : bool :=
  match e with
  | SystemExit _ => false
  | _ => true
  end.

Definition is_ValueError (e : Exn) : bool :=
  match e with
  | ValueError _ => true
  | _ => false
  end.

(* ------------------------------------------------------------------ *)
(** ** testit.py *)

Module Testit.

(** [l[i]] on a list, negative indices counting from the end. *)
Definition getitem (l : list Z) (i : Z) : Res Z :=
  let len := Z.of_nat (List.length l) in
  let j := if i <? 0 then i + len else i in
  if (0 <=? j) && (j <? len)
  then Ok (nth (Z.to_nat j) l 0)
  else Raise (IndexError "list index out of range").

(** [range(lo, hi)] *)
Definition range (lo hi : Z) : list Z :=
  map (fun k => lo + Z.of_nat k) (seq 0 (Z.to_nat (hi - lo))).

(** A [for] loop whose body updates one variable and may raise. *)
Fixpoint for_each {S X : Type} (body : S -> X -> Res S) (xs : list X) (s : S)
  : Res S :=
  match xs with
  | [] => Ok s
  | x :: xs' => rbind (body s x) (for_each body xs')
  end.

(** The body of the loop of [fibonacci]:
      next_num = fib_sequence[-1] + fib_sequence[-2]
      fib_sequence.append(next_num) *)
Definition fibonacci_body (fib_sequence : list Z) (i : Z) : Res (list Z) :=
  (a <- getitem fib_sequence (-1) ;;
   b <- getitem fib_sequence (-2) ;;
   let next_num := a + b in
   Ok (fib_sequence ++ [next_num]))%res.

Definition fibonacci (n : Z) : Res (list Z) :=
  if n <=? 0 then Ok []
  else if n =? 1 then Ok [0]
  else if n =? 2 then Ok [0; 1]
  else for_each fibonacci_body (range 2 n) [0; 1].

(** [x + y] where either operand may be [None]. *)
Definition add (x y : option Z) : Res (option Z) :=
  match x, y with
  | Some a, Some b => Ok (Some (a + b))
  | _, _ => Raise (TypeError "unsupported operand type(s) for +")
  end.

(** [fibonacci_recursive] returns [None] or an [int]. *)
Equations? fibonacci_recursive (n : Z) : Res (option Z) by wf (Z.to_nat n) lt :=
  fibonacci_recursive n with Z_le_gt_dec n 0 => {
    | left _ := Ok None;
    | right _ with Z.eq_dec n 1 => {
      | left _ := Ok (Some 0);
      | right _ with Z.eq_dec n 2 => {
        | left _ := Ok (Some 1);
        | right _ :=
            (x <- fibonacci_recursive (n - 1) ;;
             y <- fibonacci_recursive (n - 2) ;;
             add x y)%res } } }.
Proof. all: lia. Qed.

(** The Fibonacci numbers, [fib 0 = 0] and [fib 1 = 1], and the list of
    the first [k] of them: the reference both functions are compared
    with. *)
Fixpoint fib (k : nat) : Z :=
  match k with
  | O => 0
  | S k' => match k' with
            | O => 1
            | S k'' => fib k'' + fib k'
            end
  end.

Definition fib_prefix (k : nat) : list Z := map fib (seq 0 k).

End Testit.

(* ------------------------------------------------------------------ *)
(** ** Python strings *)

Module PyString.

(** [ch.isspace()] for a code point below 256. *)
Definition is_space (c : ascii) : bool :=
  let n := N_of_ascii c in
  (((9 <=? n) && (n <=? 13)) || ((28 <=? n) && (n <=? 32))
   || (n =? 133) || (n =? 160))%N.

Fixpoint lstrip (s : string) : string :=
  match s with
  | EmptyString => EmptyString
  | String c s' => if is_space c then lstrip s' else s
  end.

Fixpoint rstrip (s : string) : string :=
  match s with
  | EmptyString => EmptyString
  | String c s' =>
      match rstrip s' with
      | EmptyString => if is_space c then EmptyString else String c EmptyString
      | r => String c r
      end
  end.

(** [s.strip()] *)
Definition strip (s : string) : string := rstrip (lstrip s).

(** [s * n] *)
Fixpoint repeat (s : string) (n : nat) : string :=
  match n with
  | O => EmptyString
  | S n' => s ++ repeat s n'
  end.

(** [sep.join(l)] *)
Fixpoint join (sep : string) (l : list string) : string :=
  match l with
  | [] => EmptyString
  | [x] => x
  | x :: l' => x ++ sep ++ join sep l'
  end.

(** [needle in s] *)
Fixpoint contains (needle s : string) : bool :=
  String.prefix needle s
  || match s with
     | EmptyString => false
     | String _ s' => contains needle s'
     end.

Definition hex_digit (n : N) : ascii :=
  ascii_of_N (if (n <? 10)%N then 48 + n else 87 + n)%N.

Definition mem_char (c : ascii) (s : string) : bool :=
  existsb (Ascii.eqb c) (list_ascii_of_string s).

(** The escape of one code point inside [repr(s)], [quote] being the
    quote that delimits the literal. *)
Definition repr_char (quote c : ascii) : string :=
  let n := N_of_ascii c in
  if Ascii.eqb c quote || Ascii.eqb c "\" then String "\" (String c EmptyString)
  else if (n =? 9)%N then "\t"
  else if (n =? 10)%N then "\n"
  else if (n =? 13)%N then "\r"
  else if ((n <? 32) || ((127 <=? n) && (n <=? 160)) || (n =? 173))%N
       then String "\" (String "x"
              (String (hex_digit (n / 16)) (String (hex_digit (n mod 16)) EmptyString)))
  else String c EmptyString.

(** [repr(s)]: single quotes unless [s] has a single quote and no
    double quote. *)
Definition repr (s : string) : string :=
  let double_quote : ascii := ascii_of_N 34 in
  let quote : ascii :=
    if mem_char "'" s && negb (mem_char double_quote s)
    then double_quote else "'"%char in
  String quote
    (concat EmptyString (map (repr_char quote) (list_ascii_of_string s))
     ++ String quote EmptyString).

(** [str(n)] for an [int]. *)
Definition of_Z (z : Z) : string := NilZero.string_of_int (Z.to_int z).

Definition digit_value (c : ascii) : option Z :=
  let n := N_of_ascii c in
  if ((48 <=? n) && (n <=? 57))%N then Some (Z.of_N n - 48) else None.

(** The whitespace [int()] skips around a literal: the C whitespace, and
    the two whitespace code points between 128 and 255. The separators
    28 to 31, which [str.strip] removes, are not skipped. *)
Definition is_int_space (c : ascii) : bool :=
  let n := N_of_ascii c in
  (((9 <=? n) && (n <=? 13)) || (n =? 32) || (n =? 133) || (n =? 160))%N.

Fixpoint skip_int_space (s : string) : string :=
  match s with
  | EmptyString => EmptyString
  | String c s' => if is_int_space c then skip_int_space s' else s
  end.

(** The digits of an integer literal: decimal digits, with single
    underscores allowed between two digits. [after_digit] tells whether
    the previous character was a digit. The result is the value, the
    number of digits and what follows them; there is none when no digit
    was read or an underscore is misplaced. *)
Fixpoint parse_digits (acc count : Z) (after_digit : bool) (s : string)
  : option (Z * Z * string) :=
  match s with
  | EmptyString => if after_digit then Some (acc, count, s) else None
  | String c s' =>
      match digit_value c with
      | Some d => parse_digits (10 * acc + d) (count + 1) true s'
      | None =>
          if Ascii.eqb c "_"
          then (if after_digit then parse_digits acc count false s' else None)
          else (if after_digit then Some (acc, count, s) else None)
      end
  end.

(** [sys.int_info.default_max_str_digits] *)
Definition max_str_digits : Z := 4300.

(** [int(s)] for a [str]: whitespace, an optional sign, the digits,
    whitespace. A literal of more than [max_str_digits] digits is
    refused before what follows the digits is looked at. *)
Definition int (s : string) : Res Z :=
  let invalid :=
    Raise (ValueError ("invalid literal for int() with base 10: "
                       ++ substring 0 200 (repr s))) in
  let '(negative, digits) :=
    match skip_int_space s with
    | String "-" t => (true, t)
    | String "+" t => (false, t)
    | t => (false, t)
    end in
  match parse_digits 0 0 false digits with
  | None => invalid
  | Some (value, count, rest) =>
      if max_str_digits <? count
      then Raise (ValueError
                    ("Exceeds the limit (" ++ of_Z max_str_digits
                     ++ " digits) for integer string conversion: value has "
                     ++ of_Z count
                     ++ " digits; use sys.set_int_max_str_digits() "
                     ++ "to increase the limit"))
      else match skip_int_space rest with
           | EmptyString => Ok (if negative : bool then - value else value)
           | String _ _ => invalid
           end
  end.

(** Truthiness of an [Optional[str]]: [None] and the empty string are
    false. *)
Definition truthy (x : option string) : bool :=
  match x with
  | None => false
  | Some EmptyString => false
  | Some _ => true
  end.

End PyString.

(** [str(x)], as used by f-strings. *)
Class PyStr (A : Type) : Type := py_str : A -> string.

#[export] Instance PyStr_string : PyStr string := fun s => s.
#[export] Instance PyStr_Z : PyStr Z := PyString.of_Z.
#[export] Instance PyStr_nat : PyStr nat := fun n => PyString.of_Z (Z.of_nat n).
#[export] Instance PyStr_option {A} `{PyStr A} : PyStr (option A) :=
  fun x => match x with
           | None => "None"
           | Some a => py_str a
           end.

(** [str(e)] for an exception. *)
Definition str_of_exn (e : Exn) : string :=
  match e with
  | NameError name => "name '" ++ name ++ "' is not defined"
  | ValueError msg | TypeError msg | IndexError msg | OSError msg => msg
  | CalledProcessError rc cmd _ _ =>
      "Command '[" ++ PyString.join ", " (map PyString.repr cmd)
      ++ "]' returned non-zero exit status " ++ py_str rc ++ "."
  | SystemExit code => py_str code
  end.

#[export] Instance PyStr_Exn : PyStr Exn := str_of_exn.

(* ------------------------------------------------------------------ *)
(** ** Effects, and computations that have them *)

Inductive Effect : Type :=
| SubprocessRun (cmd : list string)     (* subprocess.run(cmd, ...) is called *)
| Print (text : string)                 (* print(text) *)
| ShowError (title message : string)    (* messagebox.showerror *)
| ShowWarning (title message : string)  (* messagebox.showwarning *)
| ButtonConfig (state : string)         (* self.run_button.config(state=...) *)
| TextDelete                            (* self.results_text.delete(1.0, tk.END) *)
| TextInsert (text : string)            (* self.results_text.insert(tk.END, text) *)
| TextUpdate                            (* self.results_text.update() *)
| TextSee.                              (* self.results_text.see(tk.END) *)

Definition Py (A : Type) : Type := (list Effect * Res A)%type.

Definition ret {A} (a : A) : Py A := ([], Ok a).
Definition raise {A} (e : Exn) : Py A := ([], Raise e).
Definition emit (ev : Effect) : Py unit := ([ev], Ok tt).
Definition lift {A} (r : Res A) : Py A := ([], r).

Definition bind {A B} (m : Py A) (k : A -> Py B) : Py B :=
  match m with
  | (t, Ok a) => let '(t', r) := k a in (t ++ t', r)
  | (t, Raise e) => (t, Raise e)
  end.

Declare Scope py_scope.
Delimit Scope py_scope with py.
Notation "x <- m ;; k" := (bind m (fun x => k))
  (at level 100, m at next level, right associativity) : py_scope.
Notation "m ;; k" := (bind m (fun _ => k))
  (at level 100, right associativity) : py_scope.

Definition trace {A} (m : Py A) : list Effect := fst m.
Definition outcome {A} (m : Py A) : Res A := snd m.

(** [try: body except ...: handler]: [handler e] is [None] when no
    except clause matches [e]. *)
Definition try_except {A} (body : Py A) (handler : Exn -> option (Py A)) : Py A :=
  match body with
  | (t, Raise e) =>
      match handler e with
      | Some h => let '(t', r) := h in (t ++ t', r)
      | None => (t, Raise e)
      end
  | (t, Ok a) => (t, Ok a)
  end.

(** [try: body finally: fin] *)
Definition try_finally {A} (body : Py A) (fin : Py unit) : Py A :=
  let '(t, r) := body in
  match fin with
  | (t', Ok _) => (t ++ t', r)
  | (t', Raise e) => (t ++ t', Raise e)
  end.

(** A [for] loop that updates one variable. *)
Fixpoint for_loop {S X : Type} (body : S -> X -> Py S) (xs : list X) (s : S)
  : Py S :=
  match xs with
  | [] => ret s
  | x :: xs' => bind (body s x) (for_loop body xs')
  end.

(** The exit status of the interpreter running a script. *)
Definition exit_status {A} (m : Py A) : Z :=
  match outcome m with
  | Ok _ => 0
  | Raise (SystemExit code) => code mod 256
  | Raise _ => 1
  end.

(** How many times the launcher was called. *)
Definition is_launch (ev : Effect) : bool :=
  match ev with
  | SubprocessRun _ => true
  | _ => false
  end.

Definition launches (t : list Effect) : nat := List.length (filter is_launch t).

(** What was printed. *)
Definition printed (t : list Effect) : list string :=
  flat_map (fun ev => match ev with Print s => [s] | _ => [] end) t.

(* ------------------------------------------------------------------ *)
(** ** The environment: the launcher *)

Inductive ProcOutcome : Type :=
| Exited (returncode : Z) (out err : string)   (* ran and terminated *)
| NotStarted (msg : string)                    (* could not be started *)
| Undecodable (msg : string).                  (* ran, but what it wrote is
                                                   no text in the encoding *)

(** The environment of a run in which [os.getcwd()] returns; [Full]
    below adds the runs in which it raises. *)
Record Env : Type := {
  getcwd : string;                            (* os.getcwd() *)
  launcher : list string -> ProcOutcome       (* what running [cmd] does *)
}.

(** [subprocess.run(cmd, capture_output=True, text=True, check=True)];
    the result is the pair of the captured stdout and stderr. *)
Definition subprocess_run (env : Env) (cmd : list string) : Py (string * string) :=
  (emit (SubprocessRun cmd) ;;
   match launcher env cmd with
   | Exited rc out err =>
       if rc =? 0 then ret (out, err)
       else raise (CalledProcessError rc cmd out err)
   | NotStarted msg => raise (OSError msg)
   | Undecodable msg => raise (ValueError msg)   (* UnicodeDecodeError, a
                                                    ValueError, whatever
                                                    the exit status *)
   end)%py.

(** The fields of a result tuple [(identifier, stdout, stderr)]. *)
Definition ident {I} (o : I * option string * option string) : I := fst (fst o).
Definition output {I} (o : I * option string * option string) : option string :=
  snd (fst o).
Definition error {I} (o : I * option string * option string) : option string :=
  snd o.

(* ------------------------------------------------------------------ *)
(** ** concurrent.futures *)

Module Futures.

(** [ThreadPoolExecutor(max_workers=n)] *)
Definition ThreadPoolExecutor (max_workers : Z) : Py unit :=
  if max_workers <=? 0
  then raise (ValueError "max_workers must be greater than 0")
  else ret tt.

(** A future that is done holds the value its task returned or the
    exception it raised. *)
Definition Future (B : Type) : Type := Res B.

(** [executor.submit(fn, x)]: the task runs in a worker; its effects
    happen, what it returns or raises is kept in the future. Here the
    effects of the tasks are listed in the order of submission, which
    is the order in which one worker runs them; with more workers the
    tasks may start in any order, which [Full.submit_all] below takes
    as a parameter. *)
Definition submit {A B} (fn : A -> Py B) (x : A) : Py (Future B) :=
  let '(t, r) := fn x in (t, Ok r).

(** [{executor.submit(fn, x): x for x in xs}]: the futures, in the
    order of submission. *)
Fixpoint submit_all {A B} (fn : A -> Py B) (xs : list A) : Py (list (Future B)) :=
  match xs with
  | [] => ret []
  | x :: xs' =>
      (f <- submit fn x ;;
       fs <- submit_all fn xs' ;;
       ret (f :: fs))%py
  end.

(** The elements of [l] at the positions listed in [order]. *)
Definition pick {A} (order : list nat) (l : list A) : list A :=
  flat_map (fun i => match nth_error l i with
                     | Some a => [a]
                     | None => []
                     end) order.

(** [as_completed(fs)]: the futures in the order they complete, given
    as the list of their positions in [fs]. Every future completes
    once, so an order is a permutation of [seq 0 (length fs)]; the
    [with] block is left only when all of them are done. *)
Definition as_completed {B} (order : list nat) (fs : list (Future B))
  : list (Future B) :=
  pick order fs.

(** [future.result()] *)
Definition result {B} (f : Future B) : Py B := lift f.

End Futures.

(* ------------------------------------------------------------------ *)
(** ** docker_runner.py *)

Module Cli.

(** The objects that can stand in the first slot of a result tuple: a
    [str], an [int], or an object bound at module level (a module, a
    function, a name of [typing]). *)
Inductive Value : Type :=
| VStr (s : string)
| VInt (z : Z)
| VObject (name : string).

#[global] Instance PyStr_Value : PyStr Value :=
  fun v => match v with
           | VStr s => s
           | VInt z => py_str z
           | VObject name => ("<" ++ name ++ ">")%string
           end.

(** [(index, stdout, stderr)] *)
Abbreviation Outcome := (Value * option string * option string)%type (only parsing).

(** The global names of the module: its imports and its functions.
    [__name__] and [__doc__] are the only ones bound to strings. *)
Definition module_globals : list (string * Value) :=
  [ ("__name__", VStr "__main__");
    ("__doc__", VStr "Run Docker containers in parallel using threads and subprocess.");
    ("subprocess", VObject "module 'subprocess'");
    ("threading", VObject "module 'threading'");
    ("ThreadPoolExecutor", VObject "class 'concurrent.futures.thread.ThreadPoolExecutor'");
    ("as_completed", VObject "function as_completed");
    ("sys", VObject "module 'sys'");
    ("List", VObject "typing.List");
    ("Tuple", VObject "typing.Tuple");
    ("Optional", VObject "typing.Optional");
    ("os", VObject "module 'os'");
    ("run_docker_container", VObject "function run_docker_container");
    ("run_containers_parallel", VObject "function run_containers_parallel");
    ("aggregate_and_display_results", VObject "function aggregate_and_display_results");
    ("main", VObject "function main") ].

Fixpoint lookup (name : string) (ns : list (string * Value)) : option Value :=
  match ns with
  | [] => None
  | (k, v) :: ns' => if String.eqb k name then Some v else lookup name ns'
  end.

(** Reading a name that is no local variable of the function: the
    globals [ns] of the module are searched (then the builtins, which
    have no [index]). *)
Definition load_global (ns : list (string * Value)) (name : string) : Py Value :=
  match lookup name ns with
  | Some v => ret v
  | None => raise (NameError name)
  end.

(** The list [cmd] that [run_docker_container] builds. *)
Definition docker_command (env : Env) (command : string) : list string :=
  [ "docker"; "run";
    "-u"; "coder";
    "-v"; getcwd env ++ ":/home/coder/project";
    "-w"; "/home/coder/project";
    "--rm";
    "py-cl-7";
    "sh"; "-c"; "echo '" ++ command ++ "'" ]%string.

(** The effect of one call of the executor. *)
Definition launch (env : Env) (command : string) : Effect :=
  SubprocessRun (docker_command env command).

Section WithGlobals.

(** The global namespace the functions run in; [module_globals] for the
    module as it is written. *)
Variable globals : list (string * Value).

(** [run_docker_container(command)]: the parameter is [command]; the
    three [return] statements read the name [index], which is not a
    local variable. *)
Definition run_docker_container (env : Env) (command : string) : Py Outcome :=
  let cmd := docker_command env command in
  try_except
    (result <- subprocess_run env cmd ;;
     index <- load_global globals "index" ;;
     ret (index, Some (PyString.strip (fst result)), None))%py
    (fun e =>
       match e with
       | CalledProcessError _ _ _ stderr =>
           Some (index <- load_global globals "index" ;;
                 ret (index, None, Some ("Error: " ++ PyString.strip stderr)%string))%py
       | _ =>
           if is_Exception e
           then Some (index <- load_global globals "index" ;;
                      ret (index, None, Some ("Error: " ++ py_str e)%string))%py
           else None
       end).

(** [a < b] on the keys of the sort. *)
Definition value_lt (a b : Value) : Res bool :=
  match a, b with
  | VStr x, VStr y => Ok (String.ltb x y)
  | VInt x, VInt y => Ok (x <? y)
  | _, _ => Raise (TypeError "'<' not supported between instances")
  end.

(** [results.sort(key=lambda x: x[0])]: a stable sort that compares the
    keys with [<] only. *)
Fixpoint insert_by_key (r : Outcome) (sorted : list Outcome) : Res (list Outcome) :=
  match sorted with
  | [] => Ok [r]
  | r' :: rest =>
      (before <- value_lt (ident r') (ident r) ;;
       if before : bool
       then (rest' <- insert_by_key r rest ;; Ok (r' :: rest'))
       else Ok (r :: sorted))%res
  end.

Fixpoint sort_by_key (results : list Outcome) : Res (list Outcome) :=
  match results with
  | [] => Ok []
  | r :: rest => (sorted <- sort_by_key rest ;; insert_by_key r sorted)%res
  end.

(** The keys are strings, as they are when the identifier is the
    command. *)
Definition str_keyed (r : Outcome) : Prop := exists s, ident r = VStr s.

(** [r] may stand before [r']: the sort does not find [r' < r]. *)
Definition key_le (r r' : Outcome) : Prop :=
  value_lt (ident r') (ident r) = Ok false.

(** The loop [for future in as_completed(...): results.append(future.result())] *)
Definition collect (fs : list (Futures.Future Outcome)) : Py (list Outcome) :=
  for_loop (fun results future =>
              (result <- Futures.result future ;;
               ret (results ++ [result]))%py) fs [].

(** [run_containers_parallel(num_containers, commands)]; [order] is the
    order in which the futures complete. *)
Definition run_containers_parallel (env : Env) (order : list nat)
    (num_containers : Z) (commands : list string) : Py (list Outcome) :=
  (Futures.ThreadPoolExecutor num_containers ;;
   future_to_index <- Futures.submit_all (run_docker_container env) commands ;;
   results <- collect (Futures.as_completed order future_to_index) ;;
   results <- lift (sort_by_key results) ;;
   ret results)%py.

(** The body of the loop of [aggregate_and_display_results]; the state
    is [(successful_runs, failed_runs)]. *)
Definition display_one (counts : Z * Z) (r : Outcome) : Py (Z * Z) :=
  let '(successful_runs, failed_runs) := counts in
  let '(index, stdout, stderr) := r in
  if PyString.truthy stdout
  then (emit (Print ("Container " ++ py_str index ++ ": SUCCESS")%string) ;;
        emit (Print ("  Output: " ++ py_str stdout)%string) ;;
        emit (Print "") ;;
        ret (successful_runs + 1, failed_runs))%py
  else (emit (Print ("Container " ++ py_str index ++ ": FAILED")%string) ;;
        emit (Print ("  Error: " ++ py_str stderr)%string) ;;
        emit (Print "") ;;
        ret (successful_runs, failed_runs + 1))%py.

Definition newline : string := String (ascii_of_N 10) EmptyString.

Definition aggregate_and_display_results (results : list Outcome) : Py unit :=
  (emit (Print (newline ++ PyString.repeat "=" 50)%string) ;;
   emit (Print "DOCKER CONTAINER RESULTS") ;;
   emit (Print (PyString.repeat "=" 50 ++ newline)%string) ;;
   counts <- for_loop display_one results (0, 0) ;;
   emit (Print (PyString.repeat "=" 50)) ;;
   emit (Print ("SUMMARY: " ++ py_str (fst counts) ++ " successful, "
                ++ py_str (snd counts) ++ " failed")%string) ;;
   emit (Print (PyString.repeat "=" 50)))%py.

(** [main()], with [argv] for [sys.argv]. *)
Definition main (env : Env) (order : list nat) (argv : list string) : Py unit :=
  (num_containers <-
     (if (1 <? Z.of_nat (List.length argv))
      then
        try_except
          (n <- lift (PyString.int (nth 1 argv "")) ;;
           if n <? 1 then raise (ValueError "Number must be positive")
           else ret n)
          (fun e =>
             if is_ValueError e
             then Some (emit (Print ("Invalid argument: " ++ py_str e)%string) ;;
                        emit (Print ("Usage: " ++ nth 0 argv ""
                                     ++ " [number_of_containers]")%string) ;;
                        raise (SystemExit 1))
             else None)
      else ret 5) ;;
   emit (Print ("Running " ++ py_str num_containers
                ++ " Docker containers in parallel...")%string) ;;
   let commands := ["test 1"; "test 2"; "test 3"]%string in
   results <- run_containers_parallel env order num_containers commands ;;
   aggregate_and_display_results results)%py.

End WithGlobals.

End Cli.

(* ------------------------------------------------------------------ *)
(** ** docker_runner_gui.py *)

Module Gui.

(** The fields of [DockerRunnerGUI] that the run reads: the text of
    every command entry and the text of the worker-count field. *)
Record DockerRunnerGUI : Type := {
  command_entries : list string;
  max_workers_var : string
}.

(** [(command, stdout, stderr)] *)
Abbreviation Outcome := (string * option string * option string)%type (only parsing).

Definition newline : string := String (ascii_of_N 10) EmptyString.

(** [validate_max_workers(self)] *)
Definition validate_max_workers (self : DockerRunnerGUI) : Py (option Z) :=
  try_except
    (max_workers <- lift (PyString.int (max_workers_var self)) ;;
     if max_workers <? 1
     then raise (ValueError "Max workers must be at least 1")
     else ret (Some max_workers))%py
    (fun e =>
       if is_ValueError e
       then Some (emit (ShowError "Invalid Input"
                          ("Max workers must be a positive integer: " ++ py_str e)%string) ;;
                  ret None)%py
       else None).

(** The list [cmd] that [run_docker_container] builds. *)
Definition docker_command (env : Env) (command : string) : list string :=
  [ "docker"; "run";
    "-u"; "coder";
    "-v"; getcwd env ++ ":/home/coder/project";
    "-w"; "/home/coder/project";
    "--rm";
    "py-cl-7";
    "sh"; "-c";
    "echo '" ++ command
      ++ "' | npx @anthropic-ai/claude-code -p --dangerously-skip-permissions"
  ]%string.

(** The effect of one call of the executor. *)
Definition launch (env : Env) (command : string) : Effect :=
  SubprocessRun (docker_command env command).

(** [run_docker_container(self, command)] *)
Definition run_docker_container (env : Env) (command : string) : Py Outcome :=
  let cmd := docker_command env command in
  try_except
    (result <- subprocess_run env cmd ;;
     ret (command, Some (PyString.strip (fst result)), None))%py
    (fun e =>
       match e with
       | CalledProcessError _ _ _ stderr =>
           Some (ret (command, None, Some ("Error: " ++ PyString.strip stderr)%string))
       | _ =>
           if is_Exception e
           then Some (ret (command, None, Some ("Error: " ++ py_str e)%string))
           else None
       end).

(** The loop [for future in as_completed(...): results.append(future.result())] *)
Definition collect (fs : list (Futures.Future Outcome)) : Py (list Outcome) :=
  for_loop (fun results future =>
              (result <- Futures.result future ;;
               ret (results ++ [result]))%py) fs [].

(** [run_containers_parallel(self, commands, max_workers)]; [order] is
    the order in which the futures complete. The results are returned in
    that order. *)
Definition run_containers_parallel (env : Env) (order : list nat)
    (commands : list string) (max_workers : Z) : Py (list Outcome) :=
  (Futures.ThreadPoolExecutor max_workers ;;
   future_to_command <- Futures.submit_all (run_docker_container env) commands ;;
   results <- collect (Futures.as_completed order future_to_command) ;;
   ret results)%py.

(** [enumerate(l, start)] *)
Definition enumerate {A} (l : list A) (start : Z) : list (Z * A) :=
  combine (map (fun k => start + Z.of_nat k) (seq 0 (List.length l))) l.

(** The body of the loop of [display_results]; the state is
    [(successful_runs, failed_runs)]. *)
Definition display_one (counts : Z * Z) (item : Z * Outcome) : Py (Z * Z) :=
  let '(successful_runs, failed_runs) := counts in
  let '(i, (command, stdout, stderr)) := item in
  if PyString.truthy stdout
  then (emit (TextInsert ("Container " ++ py_str i ++ " - Command: "
                          ++ command ++ newline)%string) ;;
        emit (TextInsert ("  Status: SUCCESS" ++ newline)%string) ;;
        emit (TextInsert ("  Output: " ++ py_str stdout ++ newline)%string) ;;
        emit (TextInsert newline) ;;
        ret (successful_runs + 1, failed_runs))%py
  else (emit (TextInsert ("Container " ++ py_str i ++ " - Command: "
                          ++ command ++ newline)%string) ;;
        emit (TextInsert ("  Status: FAILED" ++ newline)%string) ;;
        emit (TextInsert ("  Error: " ++ py_str stderr ++ newline)%string) ;;
        emit (TextInsert newline) ;;
        ret (successful_runs, failed_runs + 1))%py.

(** [display_results(self, results)] *)
Definition display_results (results : list Outcome) : Py unit :=
  (emit (TextInsert (PyString.repeat "=" 60 ++ newline)%string) ;;
   emit (TextInsert ("DOCKER CONTAINER RESULTS" ++ newline)%string) ;;
   emit (TextInsert (PyString.repeat "=" 60 ++ newline ++ newline)%string) ;;
   counts <- for_loop display_one (enumerate results 1) (0, 0) ;;
   emit (TextInsert (PyString.repeat "=" 60 ++ newline)%string) ;;
   emit (TextInsert ("SUMMARY: " ++ py_str (fst counts) ++ " successful, "
                     ++ py_str (snd counts) ++ " failed" ++ newline)%string) ;;
   emit (TextInsert (PyString.repeat "=" 60 ++ newline)%string) ;;
   emit TextSee)%py.

(** [display_error(self, error_message)] *)
Definition display_error (error_message : string) : Py unit :=
  (emit (TextInsert (newline ++ "ERROR: " ++ error_message ++ newline)%string) ;;
   emit TextSee)%py.

(** [run_containers_thread(self, commands, max_workers)]. The calls
    handed to [self.root.after(0, ...)] run in the order they were
    scheduled; they are run in place here. *)
Definition run_containers_thread (env : Env) (order : list nat)
    (commands : list string) (max_workers : Z) : Py unit :=
  try_finally
    (try_except
       (results <- run_containers_parallel env order commands max_workers ;;
        display_results results)%py
       (fun e =>
          if is_Exception e then Some (display_error (py_str e)) else None))
    (emit (ButtonConfig "normal")).

(** The commands read from the entries: [text_widget.get(1.0, tk.END)]
    is the text followed by a newline; empty texts are skipped. *)
Definition read_commands (self : DockerRunnerGUI) : list string :=
  filter (fun text => negb (String.eqb text ""))
         (map (fun content => PyString.strip (content ++ newline))
              (command_entries self)).

(** [run_containers(self)]; the worker thread it starts is run to its
    end. *)
Definition run_containers (env : Env) (order : list nat) (self : DockerRunnerGUI)
  : Py unit :=
  (max_workers <- validate_max_workers self ;;
   match max_workers with
   | None => ret tt
   | Some max_workers =>
       let commands := read_commands self in
       match commands with
       | [] => emit (ShowWarning "No Commands" "Please enter at least one command.")
       | _ :: _ =>
           emit (ButtonConfig "disabled") ;;
           emit TextDelete ;;
           emit (TextInsert ("Running " ++ py_str (List.length commands)
                             ++ " Docker containers with max " ++ py_str max_workers
                             ++ " workers..." ++ newline ++ newline)%string) ;;
           emit TextUpdate ;;
           run_containers_thread env order commands max_workers
       end
   end)%py.

End Gui.

(* ------------------------------------------------------------------ *)
(** ** The report, as the renderer's contract words it *)

Module Report.

Section Counts.

Context {I : Type}.

(** An outcome counts as a success when its output is a non-empty
    string. *)
Definition is_success (r : I * option string * option string) : bool :=
  PyString.truthy (output r).

Definition successes (results : list (I * option string * option string)) : Z :=
  Z.of_nat (List.length (filter is_success results)).

Definition failures (results : list (I * option string * option string)) : Z :=
  Z.of_nat (List.length (filter (fun r => negb (is_success r)) results)).

End Counts.

Definition rule (n : nat) : string := PyString.repeat "=" n.

Definition summary {I} (results : list (I * option string * option string))
  : string :=
  "SUMMARY: " ++ py_str (successes results) ++ " successful, "
  ++ py_str (failures results) ++ " failed".

(** The lines the CLI prints for one outcome. *)
Definition cli_block (r : Cli.Outcome) : list string :=
  if is_success r
  then [ "Container " ++ py_str (ident r) ++ ": SUCCESS";
         "  Output: " ++ py_str (output r);
         "" ]%string
  else [ "Container " ++ py_str (ident r) ++ ": FAILED";
         "  Error: " ++ py_str (error r);
         "" ]%string.

Definition cli_report (results : list Cli.Outcome) : list string :=
  [ Cli.newline ++ rule 50; "DOCKER CONTAINER RESULTS"; rule 50 ++ Cli.newline ]%string
  ++ flat_map cli_block results
  ++ [ rule 50; summary results; rule 50 ].

(** The texts the GUI inserts for the outcome numbered [i]. *)
Definition gui_block (item : Z * Gui.Outcome) : list string :=
  let '(i, r) := item in
  if is_success r
  then [ "Container " ++ py_str i ++ " - Command: " ++ ident r ++ Gui.newline;
         "  Status: SUCCESS" ++ Gui.newline;
         "  Output: " ++ py_str (output r) ++ Gui.newline;
         Gui.newline ]%string
  else [ "Container " ++ py_str i ++ " - Command: " ++ ident r ++ Gui.newline;
         "  Status: FAILED" ++ Gui.newline;
         "  Error: " ++ py_str (error r) ++ Gui.newline;
         Gui.newline ]%string.

Definition gui_report (results : list Gui.Outcome) : list string :=
  [ rule 60 ++ Gui.newline;
    "DOCKER CONTAINER RESULTS" ++ Gui.newline;
    rule 60 ++ Gui.newline ++ Gui.newline ]%string
  ++ flat_map gui_block (Gui.enumerate results 1)
  ++ [ rule 60 ++ Gui.newline; summary results ++ Gui.newline; rule 60 ++ Gui.newline ]%string.

End Report.

(* ------------------------------------------------------------------ *)
(** ** Sample environments *)

(** A launcher under which every process does [p]. *)
Definition env_always (p : ProcOutcome) : Env :=
  {| getcwd := "/work"; launcher := fun _ => p |}.

(** Whether the execution succeeded, that is [subprocess.run] returned:
    the process terminated with exit status 0 and what it wrote was
    decoded. *)
Definition succeeded (p : ProcOutcome) : bool :=
  match p with
  | Exited rc _ _ => rc =? 0
  | NotStarted _ => false
  | Undecodable _ => false
  end.

Definition is_some {A} (x : option A) : bool :=
  match x with
  | Some _ => true
  | None => false
  end.

(** The invariant of a result tuple, [p] being what the process did:
    exactly one of the output and the error is set; the output is set
    exactly when the execution succeeded; the error is set, and then
    non-empty, exactly when it failed. *)
Definition one_field_set {I} (p : ProcOutcome)
    (o : I * option string * option string) : Prop :=
  xorb (is_some (output o)) (is_some (error o)) = true
  /\ is_some (output o) = succeeded p
  /\ is_some (error o) = negb (succeeded p)
  /\ PyString.truthy (error o) = negb (succeeded p).


(* ------------------------------------------------------------------ *)
(** ** docker_runner_gui.py: the rows of the command form *)

Module Form.

(** One child of [self.commands_container]: a frame holding a [Text]
    widget and its Delete button. The frame and its [Text] widget are
    created together and handed together to [delete_command]; they
    share one identity here. *)
Record CommandRow : Type := {
  row_id : nat;         (* the identity of the frame and of its Text widget *)
  row_grid : Z;         (* the [row] the frame was last gridded at *)
  row_text : string     (* the content of the Text widget *)
}.

Record State : Type := {
  entries : list nat;             (* self.command_entries *)
  children : list CommandRow;     (* self.commands_container.winfo_children(),
                                     in the order of creation *)
  max_workers : string;           (* self.max_workers_var *)
  fresh : nat                     (* the identity of the next widget *)
}.

Definition default_command : string :=
  "Write a file called example.txt with 'Hello World'".

(** [add_command(self)] *)
Definition add_command (self : State) : State :=
  let k := fresh self in
  let command_frame :=
    {| row_id := k;
       row_grid := Z.of_nat (List.length (entries self));
       row_text := match entries self with
                   | [] => default_command
                   | _ :: _ => EmptyString
                   end |} in
  {| entries := entries self ++ [k];
     children := children self ++ [command_frame];
     max_workers := max_workers self;
     fresh := S k |}.

(** [l.remove(x)] *)
Fixpoint list_remove (x : nat) (l : list nat) : Res (list nat) :=
  match l with
  | [] => Raise (ValueError "list.remove(x): x not in list")
  | y :: l' =>
      if Nat.eqb y x then Ok l'
      else (r <- list_remove x l' ;; Ok (y :: r))%res
  end.

(** The loop of [delete_command]: every child is gridded at its
    position. *)
Definition regrid (rows : list CommandRow) : list CommandRow :=
  map (fun item : Z * CommandRow =>
         let '(i, child) := item in
         {| row_id := row_id child; row_grid := i; row_text := row_text child |})
      (Gui.enumerate rows 0).

(** [delete_command(self, frame, text_widget)] for the frame and the
    widget of identity [k]. The result is the form after the call. *)
Definition delete_command (self : State) (k : nat) : Py State :=
  if 1 <? Z.of_nat (List.length (entries self))
  then
    let remaining := filter (fun child => negb (Nat.eqb (row_id child) k))
                            (children self) in
    (command_entries <- lift (list_remove k (entries self)) ;;
     ret {| entries := command_entries;
            children := regrid remaining;
            max_workers := max_workers self;
            fresh := fresh self |})%py
  else
    (emit (ShowWarning "Warning" "You must have at least one command.") ;;
     ret self)%py.

(** [DockerRunnerGUI(root)]: no entry, then [create_widgets] adds the
    first row and sets the worker count to 5. *)
Definition init : State :=
  let self := add_command {| entries := []; children := [];
                             max_workers := EmptyString; fresh := O |} in
  {| entries := entries self; children := children self;
     max_workers := "5"; fresh := fresh self |}.

(** The user types [text] into the widget [k], or into the worker-count
    field. *)
Definition type_command (self : State) (k : nat) (text : string) : State :=
  {| entries := entries self;
     children := map (fun child =>
                        if Nat.eqb (row_id child) k
                        then {| row_id := row_id child; row_grid := row_grid child;
                                row_text := text |}
                        else child) (children self);
     max_workers := max_workers self;
     fresh := fresh self |}.

Definition type_max_workers (self : State) (text : string) : State :=
  {| entries := entries self; children := children self;
     max_workers := text; fresh := fresh self |}.

(** [text_widget.get(1.0, tk.END)] without the newline Tk appends. *)
Definition text_of (self : State) (k : nat) : string :=
  match find (fun child => Nat.eqb (row_id child) k) (children self) with
  | Some child => row_text child
  | None => EmptyString
  end.

(** What [run_containers] reads of the form. *)
Definition to_gui (self : State) : Gui.DockerRunnerGUI :=
  {| Gui.command_entries := map (text_of self) (entries self);
     Gui.max_workers_var := max_workers self |}.

(** The forms the user can reach. *)
Inductive reachable : State -> Prop :=
| reach_init : reachable init
| reach_add self : reachable self -> reachable (add_command self)
| reach_delete self k t self' :
    reachable self -> In k (entries self) ->
    delete_command self k = (t, Ok self') -> reachable self'
| reach_type self k text : reachable self -> reachable (type_command self k text)
| reach_workers self text : reachable self -> reachable (type_max_workers self text).

(** What every reachable form satisfies. *)
Record invariant (self : State) : Prop := {
  inv_nonempty : entries self <> [];
  inv_aligned : map row_id (children self) = entries self;
  inv_rows : map row_grid (children self)
             = map Z.of_nat (seq 0 (List.length (entries self)));
  inv_nodup : NoDup (entries self);
  inv_fresh : Forall (fun k => (k < fresh self)%nat) (entries self)
}.

End Form.

(* ------------------------------------------------------------------ *)
(** ** The runs with the whole of their environment

    The definitions above describe a run in which [os.getcwd()] returns
    and list the launches in the order of submission. Both executors
    call [os.getcwd()] while they build [cmd], before their [try]
    block, and the workers of a pool reach their tasks in an order of
    their own. The definitions of this module add the two: the first
    step of an executor, and the order in which the tasks are
    started. *)

Module Full.

Record World : Type := {
  env : Env;
    (* the path [os.getcwd()] returns when it returns, and the launcher *)
  getcwd_error : string -> option string
    (* for the task of a command: the message of the [OSError] that
       [os.getcwd()] raises (the directory is gone), if it raises *)
}.

(** [os.getcwd()], called by the task of [command]. *)
Definition os_getcwd (w : World) (command : string) : Py string :=
  match getcwd_error w command with
  | Some msg => raise (OSError msg)
  | None => ret (getcwd (env w))
  end.

Definition has_cwd (w : World) (command : string) : bool :=
  match getcwd_error w command with
  | Some _ => false
  | None => true
  end.

(** [DockerRunnerGUI.run_docker_container]: the call of [os.getcwd()]
    in the list [cmd], then the rest. *)
Definition gui_run_docker_container (w : World) (command : string)
  : Py Gui.Outcome :=
  (os_getcwd w command ;; Gui.run_docker_container (env w) command)%py.

(** [run_docker_container] of [docker_runner.py], likewise. *)
Definition cli_run_docker_container (globals : list (string * Cli.Value))
    (w : World) (command : string) : Py Cli.Outcome :=
  (os_getcwd w command ;; Cli.run_docker_container globals (env w) command)%py.

(** [{executor.submit(fn, x): x for x in xs}], the workers starting the
    tasks in the order [started] (positions in [xs]; with one worker,
    the order of submission): the effects of the tasks happen in that
    order, the futures are kept in the order of submission. *)
Definition submit_all {A B} (started : list nat) (fn : A -> Py B) (xs : list A)
  : Py (list (Futures.Future B)) :=
  (flat_map (fun x => trace (fn x)) (Futures.pick started xs),
   Ok (map (fun x => outcome (fn x)) xs)).

(** [DockerRunnerGUI.run_containers_parallel] *)
Definition gui_run_containers_parallel (w : World) (started order : list nat)
    (commands : list string) (max_workers : Z) : Py (list Gui.Outcome) :=
  (Futures.ThreadPoolExecutor max_workers ;;
   future_to_command <- submit_all started (gui_run_docker_container w) commands ;;
   results <- Gui.collect (Futures.as_completed order future_to_command) ;;
   ret results)%py.

(** [run_containers_parallel] of [docker_runner.py] *)
Definition cli_run_containers_parallel (globals : list (string * Cli.Value))
    (w : World) (started order : list nat)
    (num_containers : Z) (commands : list string) : Py (list Cli.Outcome) :=
  (Futures.ThreadPoolExecutor num_containers ;;
   future_to_index <-
     submit_all started (cli_run_docker_container globals w) commands ;;
   results <- Cli.collect (Futures.as_completed order future_to_index) ;;
   results <- lift (Cli.sort_by_key results) ;;
   ret results)%py.

(** [DockerRunnerGUI.run_containers_thread] *)
Definition gui_run_containers_thread (w : World) (started order : list nat)
    (commands : list string) (max_workers : Z) : Py unit :=
  try_finally
    (try_except
       (results <- gui_run_containers_parallel w started order commands
                     max_workers ;;
        Gui.display_results results)%py
       (fun e =>
          if is_Exception e then Some (Gui.display_error (py_str e)) else None))
    (emit (ButtonConfig "normal")).

(** [DockerRunnerGUI.run_containers] *)
Definition gui_run_containers (w : World) (started order : list nat)
    (self : Gui.DockerRunnerGUI) : Py unit :=
  (max_workers <- Gui.validate_max_workers self ;;
   match max_workers with
   | None => ret tt
   | Some max_workers =>
       let commands := Gui.read_commands self in
       match commands with
       | [] => emit (ShowWarning "No Commands" "Please enter at least one command.")
       | _ :: _ =>
           emit (ButtonConfig "disabled") ;;
           emit TextDelete ;;
           emit (TextInsert ("Running " ++ py_str (List.length commands)
                             ++ " Docker containers with max " ++ py_str max_workers
                             ++ " workers..." ++ Gui.newline ++ Gui.newline)%string) ;;
           emit TextUpdate ;;
           gui_run_containers_thread w started order commands max_workers
       end
   end)%py.

(** A world in which the directory is there for every task. *)
Definition world_of (e : Env) : World :=
  {| env := e; getcwd_error := fun _ => None |}.

End Full.

(** The world in which the working directory is gone when the task of
    [gone] asks for it. *)
Definition cwd_gone_for (e : Env) (gone : string) : Full.World :=
  {| Full.env := e;
     Full.getcwd_error := fun c =>
       if String.eqb c gone
       then Some "[Errno 2] No such file or directory"
       else None |}.

(* ================================================================== *)
(** * Properties *)

Example fibonacci_10 :
  Testit.fibonacci 10 = Ok [0; 1; 1; 2; 3; 5; 8; 13; 21; 34].
Proof. reflexivity. Qed.

Example fibonacci_recursive_10 : Testit.fibonacci_recursive 10 = Ok (Some 34).
Proof. reflexivity. Qed.

(** [int()] does not skip the separators 28 to 31, and refuses a
    literal of more than 4300 digits. *)
Example int_file_separator :
  exists msg, PyString.int (String (ascii_of_N 28) "2") = Raise (ValueError msg).
Proof. eexists. reflexivity. Qed.

Example int_digit_limit :
  PyString.int (PyString.repeat "1" 4301)
  = Raise (ValueError
             ("Exceeds the limit (4300 digits) for integer string conversion: "
              ++ "value has 4301 digits; use sys.set_int_max_str_digits() "
              ++ "to increase the limit"))
  /\ exists n, PyString.int (PyString.repeat "1" 4300) = Ok n.
Proof. split; [vm_compute; reflexivity | eexists; vm_compute; reflexivity]. Qed.

Example strip_ex : PyString.strip "  hello world
 " = "hello world".
Proof. reflexivity. Qed.

Example int_ex : PyString.int " +1_000 " = Ok 1000 /\ PyString.int "-7" = Ok (-7)
  /\ PyString.int "abc" = Raise (ValueError "invalid literal for int() with base 10: 'abc'")
  /\ PyString.int "1__0" = Raise (ValueError "invalid literal for int() with base 10: '1__0'")
  /\ PyString.int "- 1" = Raise (ValueError "invalid literal for int() with base 10: '- 1'")
  /\ py_str (-120) = "-120" /\ py_str 0 = "0".
Proof. repeat split; reflexivity. Qed.

(** ** testit.py *)

Lemma getitem_last (l : list Z) (a b : Z) :
  Testit.getitem (l ++ [a; b]) (-1) = Ok b /\ Testit.getitem (l ++ [a; b]) (-2) = Ok a.
Proof.
  unfold Testit.getitem. rewrite length_app. cbn [List.length].
  assert (H1 : (-1 <? 0) = true) by reflexivity.
  assert (H2 : (-2 <? 0) = true) by reflexivity.
  rewrite H1, H2. clear H1 H2.
  set (len := Z.of_nat (List.length l + 2)).
  assert (Hlen : len = Z.of_nat (List.length l) + 2) by (unfold len; lia).
  split.
  - replace ((0 <=? -1 + len) && (-1 + len <? len)) with true
      by (symmetry; apply andb_true_iff; split; [apply Z.leb_le | apply Z.ltb_lt]; lia).
    replace (Z.to_nat (-1 + len)) with (List.length l + 1)%nat by lia.
    rewrite app_nth2 by lia.
    replace (List.length l + 1 - List.length l)%nat with 1%nat by lia. reflexivity.
  - replace ((0 <=? -2 + len) && (-2 + len <? len)) with true
      by (symmetry; apply andb_true_iff; split; [apply Z.leb_le | apply Z.ltb_lt]; lia).
    replace (Z.to_nat (-2 + len)) with (List.length l + 0)%nat by lia.
    rewrite app_nth2 by lia.
    replace (List.length l + 0 - List.length l)%nat with 0%nat by lia. reflexivity.
Qed.

Lemma fib_prefix_S k : Testit.fib_prefix (S k) = Testit.fib_prefix k ++ [Testit.fib k].
Proof. unfold Testit.fib_prefix. rewrite seq_S, map_app. reflexivity. Qed.

Lemma fibonacci_body_step (k : nat) (i : Z) :
  Testit.fibonacci_body (Testit.fib_prefix (S (S k))) i = Ok (Testit.fib_prefix (S (S (S k)))).
Proof.
  unfold Testit.fibonacci_body.
  rewrite (fib_prefix_S (S k)), (fib_prefix_S k), <- app_assoc. cbn [app].
  destruct (getitem_last (Testit.fib_prefix k) (Testit.fib k) (Testit.fib (S k))) as [-> ->].
  cbn [rbind].
  rewrite (fib_prefix_S (S (S k))), (fib_prefix_S (S k)), (fib_prefix_S k).
  rewrite <- !app_assoc. cbn [app].
  do 3 f_equal. f_equal. f_equal. cbn [Testit.fib]. lia.
Qed.

Lemma fibonacci_loop (xs : list Z) : forall k,
  Testit.for_each Testit.fibonacci_body xs (Testit.fib_prefix (S (S k)))
  = Ok (Testit.fib_prefix (S (S k) + List.length xs)).
Proof.
  induction xs as [|x xs IH]; intros k; cbn [Testit.for_each List.length].
  - f_equal. f_equal. lia.
  - rewrite fibonacci_body_step. cbn [rbind]. rewrite IH. f_equal. f_equal. lia.
Qed.

Lemma range_length lo hi : List.length (Testit.range lo hi) = Z.to_nat (hi - lo).
Proof. unfold Testit.range. rewrite length_map, length_seq. reflexivity. Qed.

Lemma fibonacci_prefix (n : Z) :
  1 <= n -> Testit.fibonacci n = Ok (Testit.fib_prefix (Z.to_nat n)).
Proof.
  intros Hn. unfold Testit.fibonacci.
  destruct (Z.leb_spec n 0); [lia|].
  destruct (Z.eqb_spec n 1) as [->|]; [reflexivity|].
  destruct (Z.eqb_spec n 2) as [->|]; [reflexivity|].
  change [0; 1] with (Testit.fib_prefix 2).
  rewrite fibonacci_loop, range_length. f_equal. f_equal. lia.
Qed.

Lemma fib_unfold (k : nat) : Testit.fib (S (S k)) = Testit.fib k + Testit.fib (S k).
Proof. reflexivity. Qed.

Lemma fibonacci_recursive_fib (k : nat) : forall n,
  1 <= n -> (Z.to_nat n <= k)%nat ->
  Testit.fibonacci_recursive n = Ok (Some (Testit.fib (Z.to_nat n - 1))).
Proof.
  induction k as [|k IH]; intros n Hn Hk; [lia|].
  rewrite Testit.fibonacci_recursive_equation_1.
  destruct (Z_le_gt_dec n 0) as [Hle|Hgt]; [lia|].
  cbn.
  destruct (Z.eq_dec n 1) as [->|H1]; [reflexivity|].
  cbn.
  destruct (Z.eq_dec n 2) as [->|H2]; [reflexivity|].
  cbn.
  rewrite (IH (n - 1)) by lia. cbn [rbind].
  rewrite (IH (n - 2)) by lia. cbn [rbind Testit.add].
  do 2 f_equal.
  replace (Z.to_nat n - 1)%nat with (S (S (Z.to_nat (n - 2) - 1))) by lia.
  replace (Z.to_nat (n - 1) - 1)%nat with (S (Z.to_nat (n - 2) - 1)) by lia.
  rewrite fib_unfold. lia.
Qed.

(** ** The executors *)

Section Executors.

Variable env : Env.
Variable command : string.

Lemma gui_executor_exit_zero (out err : string) :
  launcher env (Gui.docker_command env command) = Exited 0 out err ->
  Gui.run_docker_container env command
  = ([Gui.launch env command],
     Ok (command, Some (PyString.strip out), None)).
Proof.
  intros H. unfold Gui.run_docker_container, subprocess_run, try_except, bind, emit.
  rewrite H. reflexivity.
Qed.

Lemma gui_executor_exit_nonzero (rc : Z) (out err : string) :
  rc <> 0 ->
  launcher env (Gui.docker_command env command) = Exited rc out err ->
  Gui.run_docker_container env command
  = ([Gui.launch env command],
     Ok (command, None, Some ("Error: " ++ PyString.strip err)%string)).
Proof.
  intros Hrc H. unfold Gui.run_docker_container, subprocess_run, try_except, bind, emit.
  rewrite H. destruct (Z.eqb_spec rc 0); [contradiction | reflexivity].
Qed.

Lemma gui_executor_not_started (msg : string) :
  launcher env (Gui.docker_command env command) = NotStarted msg ->
  Gui.run_docker_container env command
  = ([Gui.launch env command],
     Ok (command, None, Some ("Error: " ++ msg)%string)).
Proof.
  intros H. unfold Gui.run_docker_container, subprocess_run, try_except, bind, emit.
  rewrite H. reflexivity.
Qed.

Lemma gui_executor_undecodable (msg : string) :
  launcher env (Gui.docker_command env command) = Undecodable msg ->
  Gui.run_docker_container env command
  = ([Gui.launch env command],
     Ok (command, None, Some ("Error: " ++ msg)%string)).
Proof.
  intros H. unfold Gui.run_docker_container, subprocess_run, try_except, bind, emit.
  rewrite H. reflexivity.
Qed.

(** The GUI executor always returns a tuple, after one launch. *)
Lemma gui_executor_returns :
  exists o : Gui.Outcome,
    Gui.run_docker_container env command
    = ([Gui.launch env command], Ok o)
    /\ ident o = command.
Proof.
  destruct (launcher env (Gui.docker_command env command))
    as [rc out err|msg|msg] eqn:H.
  - destruct (Z.eq_dec rc 0) as [->|Hrc].
    + eexists. split; [apply (gui_executor_exit_zero _ _ H) | reflexivity].
    + eexists. split; [apply (gui_executor_exit_nonzero _ _ _ Hrc H) | reflexivity].
  - eexists. split; [apply (gui_executor_not_started _ H) | reflexivity].
  - eexists. split; [apply (gui_executor_undecodable _ H) | reflexivity].
Qed.

Variable globals : list (string * Cli.Value).

(** With [index] unbound, the CLI executor raises whatever the process
    did. *)
Lemma cli_executor_raises :
  Cli.lookup "index" globals = None ->
  Cli.run_docker_container globals env command
  = ([Cli.launch env command], Raise (NameError "index")).
Proof.
  intros Hidx.
  unfold Cli.run_docker_container, subprocess_run, try_except, bind, emit,
    Cli.load_global.
  rewrite Hidx.
  destruct (launcher env (Cli.docker_command env command)) as [rc out err|msg|msg].
  - destruct (rc =? 0); reflexivity.
  - reflexivity.
  - reflexivity.
Qed.

(** Were [index] bound, the same code would return a tuple. *)
Lemma cli_executor_with_index (v : Cli.Value) :
  Cli.lookup "index" globals = Some v ->
  exists o : Cli.Outcome,
    Cli.run_docker_container globals env command
    = ([Cli.launch env command], Ok o)
    /\ ident o = v.
Proof.
  intros Hidx.
  unfold Cli.run_docker_container, subprocess_run, try_except, bind, emit,
    Cli.load_global.
  rewrite Hidx.
  destruct (launcher env (Cli.docker_command env command)) as [rc out err|msg|msg].
  - destruct (rc =? 0); eexists; split; reflexivity.
  - eexists; split; reflexivity.
  - eexists; split; reflexivity.
Qed.

End Executors.

Lemma module_globals_no_index : Cli.lookup "index" Cli.module_globals = None.
Proof. reflexivity. Qed.

(** ** The pool *)

Section Pool.

Context {A B : Type}.

Lemma submit_all_spec (fn : A -> Py B) (xs : list A) :
  Futures.submit_all fn xs
  = (flat_map (fun x => trace (fn x)) xs, Ok (map (fun x => outcome (fn x)) xs)).
Proof.
  induction xs as [|x xs IH]; [reflexivity|].
  cbn [Futures.submit_all flat_map map]. rewrite IH.
  unfold Futures.submit, bind, ret, trace, outcome.
  destruct (fn x) as [t r]. cbn. rewrite app_nil_r. reflexivity.
Qed.

Lemma pick_map (g : A -> B) (order : list nat) (l : list A) :
  Futures.pick order (map g l) = map g (Futures.pick order l).
Proof.
  unfold Futures.pick.
  induction order as [|i order IH]; [reflexivity|].
  cbn [flat_map]. rewrite map_app, IH, nth_error_map.
  destruct (nth_error l i); reflexivity.
Qed.

Lemma pick_seq_from (pre l : list A) :
  Futures.pick (seq (List.length pre) (List.length l)) (pre ++ l) = l.
Proof.
  revert pre. induction l as [|a l IH]; intros pre; [reflexivity|].
  unfold Futures.pick in *. cbn [List.length seq flat_map].
  rewrite nth_error_app2, Nat.sub_diag by lia. cbn [nth_error app].
  f_equal.
  specialize (IH (pre ++ [a])).
  rewrite length_app, <- app_assoc in IH. cbn [List.length app] in IH.
  rewrite Nat.add_1_r in IH. exact IH.
Qed.

Lemma pick_permutation (order : list nat) (l : list A) :
  Permutation order (seq 0 (List.length l)) -> Permutation (Futures.pick order l) l.
Proof.
  intros Hperm.
  rewrite <- (pick_seq_from [] l) at 2.
  unfold Futures.pick. apply Permutation_flat_map. exact Hperm.
Qed.

(** The collecting loop: every future that returned adds its value; the
    first future that raised ends the loop. *)
Lemma collect_loop_ok (rs acc : list B) :
  for_loop (fun results future =>
              (result <- Futures.result future ;; ret (results ++ [result]))%py)
           (map Ok rs) acc
  = ([], Ok (acc ++ rs)).
Proof.
  revert acc. induction rs as [|r rs IH]; intros acc.
  - cbn. rewrite app_nil_r. reflexivity.
  - cbn [map for_loop]. unfold bind at 1. cbn.
    rewrite IH, <- app_assoc. reflexivity.
Qed.

Lemma collect_loop_raise (e : Exn) (fs : list (Futures.Future B)) (acc : list B) :
  for_loop (fun results future =>
              (result <- Futures.result future ;; ret (results ++ [result]))%py)
           (Raise e :: fs) acc
  = ([], Raise e).
Proof. reflexivity. Qed.

End Pool.

Section PickRelated.

Context {A B : Type} (R : A -> B -> Prop).

Lemma pick_Forall2 (order : list nat) (l : list A) (l' : list B) :
  Forall2 R l l' -> Forall2 R (Futures.pick order l) (Futures.pick order l').
Proof.
  intros HR. unfold Futures.pick.
  induction order as [|i order IH]; [constructor|].
  cbn [flat_map]. apply Forall2_app; [|exact IH].
  clear IH. revert i. induction HR as [|a b l l' Hab HR IH]; intros i.
  - destruct i; constructor.
  - destruct i as [|i]; cbn [nth_error]; [repeat constructor; exact Hab | apply IH].
Qed.

End PickRelated.

Lemma pick_nonempty {A} (order : list nat) (l : list A) :
  l <> [] -> Permutation order (seq 0 (List.length l)) -> Futures.pick order l <> [].
Proof.
  intros Hl Hperm Hnil. apply pick_permutation in Hperm.
  rewrite Hnil in Hperm. apply Permutation_nil in Hperm. contradiction.
Qed.

Lemma pool_accepts (w : Z) : 1 <= w -> Futures.ThreadPoolExecutor w = ret tt.
Proof.
  intros Hw. unfold Futures.ThreadPoolExecutor.
  destruct (Z.leb_spec w 0); [lia | reflexivity].
Qed.

(** ** The dispatchers *)

Section Dispatch.

Variable env : Env.

Lemma gui_executor_all (commands : list string) :
  exists rs : list Gui.Outcome,
    Forall2 (fun c o => Gui.run_docker_container env c = ([Gui.launch env c], Ok o)
                        /\ ident o = c) commands rs.
Proof.
  induction commands as [|c commands [rs IH]].
  - exists []. constructor.
  - destruct (gui_executor_returns env c) as [o Ho].
    exists (o :: rs). constructor; assumption.
Qed.

(** The GUI dispatcher returns, in completion order, what the executor
    returns for each task on its own; every task is launched once. *)
Lemma gui_dispatch_spec (order : list nat) (commands : list string) (w : Z) :
  1 <= w ->
  exists results : list Gui.Outcome,
    Gui.run_containers_parallel env order commands w
    = (map (Gui.launch env) commands, Ok results)
    /\ Forall2 (fun c o => outcome (Gui.run_docker_container env c) = Ok o
                           /\ ident o = c)
               (Futures.pick order commands) results.
Proof.
  intros Hw. destruct (gui_executor_all commands) as [rs Hrs].
  exists (Futures.pick order rs). split.
  - unfold Gui.run_containers_parallel. rewrite pool_accepts by exact Hw.
    rewrite submit_all_spec.
    replace (map (fun x => outcome (Gui.run_docker_container env x)) commands)
      with (map (@Ok Gui.Outcome) rs).
    2:{ clear -Hrs. induction Hrs as [|c o l l' [Hco _] _ IH]; [reflexivity|].
        cbn [map]. rewrite IH, Hco. reflexivity. }
    replace (flat_map (fun x => trace (Gui.run_docker_container env x)) commands)
      with (map (Gui.launch env) commands).
    2:{ clear -Hrs. induction Hrs as [|c o l l' [Hco _] _ IH]; [reflexivity|].
        cbn [map flat_map]. rewrite IH, Hco. reflexivity. }
    unfold Gui.collect, Futures.as_completed, Futures.Future.
    cbn [bind ret app]. rewrite pick_map, collect_loop_ok.
    cbn. rewrite !app_nil_r. reflexivity.
  - apply pick_Forall2.
    eapply Forall2_impl; [|exact Hrs].
    cbn beta. intros c o [Hco Hid]. rewrite Hco. split; [reflexivity | exact Hid].
Qed.

Lemma Forall2_ident_map (l : list string) (results : list Gui.Outcome) :
  Forall2 (fun c o => outcome (Gui.run_docker_container env c) = Ok o /\ ident o = c)
          l results ->
  map ident results = l.
Proof.
  induction 1 as [|c o l l' [_ Hid] _ IH]; [reflexivity|].
  cbn [map]. rewrite IH, Hid. reflexivity.
Qed.

(** One entry per task, no duplicate and no omission, whatever the tasks
    did and in whatever order they completed. *)
Lemma gui_dispatch_complete (order : list nat) (commands : list string) (w : Z) :
  1 <= w ->
  Permutation order (seq 0 (List.length commands)) ->
  exists results : list Gui.Outcome,
    outcome (Gui.run_containers_parallel env order commands w) = Ok results
    /\ List.length results = List.length commands
    /\ Permutation (map ident results) commands
    /\ (NoDup commands -> NoDup (map ident results))
    /\ Forall (fun o => outcome (Gui.run_docker_container env (ident o)) = Ok o)
              results
    /\ launches (trace (Gui.run_containers_parallel env order commands w))
       = List.length commands.
Proof.
  intros Hw Hperm.
  destruct (gui_dispatch_spec order commands w Hw) as [results [Hrun Hres]].
  pose proof (Forall2_ident_map _ _ Hres) as Hids.
  pose proof (pick_permutation order commands Hperm) as Hpick.
  exists results. rewrite Hrun. cbn [outcome trace fst snd].
  split; [reflexivity|].
  split.
  { rewrite <- (length_map ident), Hids. apply Permutation_length. exact Hpick. }
  split; [rewrite Hids; exact Hpick|].
  split.
  { intros Hnd. rewrite Hids.
    apply (Permutation_NoDup (Permutation_sym Hpick)). exact Hnd. }
  split.
  { clear -Hres. induction Hres as [|c o l l' [Hco Hid] _ IH]; constructor.
    - rewrite Hid. exact Hco.
    - exact IH. }
  unfold launches. clear.
  induction commands as [|c cs IH]; [reflexivity|].
  cbn [map filter Gui.launch is_launch List.length]. f_equal. exact IH.
Qed.

Variable globals : list (string * Cli.Value).
Hypothesis index_unbound : Cli.lookup "index" globals = None.

(** With [index] unbound the CLI dispatcher launches every task and then
    raises the [NameError] of the first completed future. *)
Lemma cli_dispatch_raises (order : list nat) (w : Z) (commands : list string) :
  1 <= w ->
  commands <> [] ->
  Permutation order (seq 0 (List.length commands)) ->
  Cli.run_containers_parallel globals env order w commands
  = (map (Cli.launch env) commands, Raise (NameError "index")).
Proof.
  intros Hw Hne Hperm.
  unfold Cli.run_containers_parallel. rewrite pool_accepts by exact Hw.
  rewrite submit_all_spec.
  replace (map (fun x => outcome (Cli.run_docker_container globals env x)) commands)
    with (map (fun _ : string => @Raise (Cli.Value * option string * option string)
                                   (NameError "index")) commands).
  2:{ apply map_ext. intros c.
      rewrite (cli_executor_raises env c globals index_unbound). reflexivity. }
  replace (flat_map (fun x => trace (Cli.run_docker_container globals env x)) commands)
    with (map (Cli.launch env) commands).
  2:{ clear -index_unbound. induction commands as [|c cs IH]; [reflexivity|].
      cbn [map flat_map]. rewrite IH.
      rewrite (cli_executor_raises env c globals index_unbound). reflexivity. }
  unfold Cli.collect, Futures.as_completed, Futures.Future.
  cbn [bind ret app]. rewrite pick_map.
  pose proof (pick_nonempty order commands Hne Hperm) as Hpick.
  destruct (Futures.pick order commands) as [|c cs]; [contradiction|].
  cbn [map]. rewrite collect_loop_raise. cbn. rewrite app_nil_r. reflexivity.
Qed.

End Dispatch.

(** ** The reports *)

Section ReportCounts.

Context {I : Type}.
Implicit Types (r : I * option string * option string)
               (results : list (I * option string * option string)).

Lemma successes_cons r results :
  Report.successes (r :: results)
  = (if Report.is_success r then 1 else 0) + Report.successes results.
Proof.
  unfold Report.successes. cbn [filter].
  destruct (Report.is_success r); cbn [List.length]; lia.
Qed.

Lemma failures_cons r results :
  Report.failures (r :: results)
  = (if Report.is_success r then 0 else 1) + Report.failures results.
Proof.
  unfold Report.failures. cbn [filter].
  destruct (Report.is_success r); cbn [List.length negb]; lia.
Qed.

Lemma successes_failures_partition results :
  Report.successes results + Report.failures results
  = Z.of_nat (List.length results).
Proof.
  induction results as [|r results IH]; [reflexivity|].
  rewrite successes_cons, failures_cons. cbn [List.length].
  destruct (Report.is_success r); lia.
Qed.

End ReportCounts.

Lemma cli_display_one (s f : Z) (r : Cli.Outcome) :
  Cli.display_one (s, f) r
  = (map Print (Report.cli_block r),
     Ok (s + (if Report.is_success r then 1 else 0),
         f + (if Report.is_success r then 0 else 1))).
Proof.
  destruct r as [[index stdout] stderr].
  unfold Cli.display_one, Report.cli_block, Report.is_success, output, ident, error.
  cbn [fst snd].
  destruct (PyString.truthy stdout); cbn; rewrite ?Z.add_0_r; reflexivity.
Qed.

Lemma cli_display_loop (results : list Cli.Outcome) : forall s f,
  for_loop Cli.display_one results (s, f)
  = (map Print (flat_map Report.cli_block results),
     Ok (s + Report.successes results, f + Report.failures results)).
Proof.
  induction results as [|r results IH]; intros s f.
  - cbn. unfold ret. rewrite !Z.add_0_r. reflexivity.
  - cbn [for_loop flat_map]. rewrite cli_display_one. unfold bind.
    rewrite IH, map_app.
    rewrite successes_cons, failures_cons.
    do 2 f_equal. f_equal; lia.
Qed.

Lemma cli_report_spec (results : list Cli.Outcome) :
  Cli.aggregate_and_display_results results
  = (map Print (Report.cli_report results), Ok tt).
Proof.
  unfold Cli.aggregate_and_display_results, Report.cli_report.
  unfold bind at 1 2 3. cbn [emit].
  rewrite cli_display_loop. unfold bind, emit. cbn [fst snd].
  rewrite !map_app. cbn [map app].
  unfold Report.summary, Report.rule. rewrite !Z.add_0_l.
  reflexivity.
Qed.

Lemma enumerate_cons {A} (a : A) (l : list A) (start : Z) :
  Gui.enumerate (a :: l) start = (start, a) :: Gui.enumerate l (start + 1).
Proof.
  unfold Gui.enumerate. cbn [List.length seq map combine].
  rewrite Z.add_0_r. f_equal. f_equal.
  rewrite <- seq_shift, map_map. apply map_ext. intros k. lia.
Qed.

Lemma gui_display_one (s f : Z) (item : Z * Gui.Outcome) :
  Gui.display_one (s, f) item
  = (map TextInsert (Report.gui_block item),
     Ok (s + (if Report.is_success (snd item) then 1 else 0),
         f + (if Report.is_success (snd item) then 0 else 1))).
Proof.
  destruct item as [i [[command stdout] stderr]].
  unfold Gui.display_one, Report.gui_block, Report.is_success, output, ident, error.
  cbn [fst snd].
  destruct (PyString.truthy stdout); cbn; rewrite ?Z.add_0_r; reflexivity.
Qed.

Lemma gui_display_loop (results : list Gui.Outcome) : forall start s f,
  for_loop Gui.display_one (Gui.enumerate results start) (s, f)
  = (map TextInsert (flat_map Report.gui_block (Gui.enumerate results start)),
     Ok (s + Report.successes results, f + Report.failures results)).
Proof.
  induction results as [|r results IH]; intros start s f.
  - cbn. unfold ret. rewrite !Z.add_0_r. reflexivity.
  - rewrite enumerate_cons. cbn [for_loop flat_map].
    rewrite gui_display_one. unfold bind.
    rewrite IH, map_app, successes_cons, failures_cons. cbn [snd].
    do 2 f_equal. f_equal; lia.
Qed.

Lemma string_app_assoc (a b c : string) : ((a ++ b) ++ c = a ++ (b ++ c))%string.
Proof. induction a as [|x a IH]; [reflexivity | cbn; rewrite IH; reflexivity]. Qed.

Lemma gui_report_spec (results : list Gui.Outcome) :
  Gui.display_results results
  = (map TextInsert (Report.gui_report results) ++ [TextSee], Ok tt).
Proof.
  unfold Gui.display_results, Report.gui_report.
  unfold bind at 1 2 3. cbn [emit].
  rewrite gui_display_loop. unfold bind, emit. cbn [fst snd].
  rewrite !map_app. cbn [map app].
  unfold Report.summary, Report.rule. rewrite !Z.add_0_l, !string_app_assoc.
  rewrite <- !app_assoc. reflexivity.
Qed.

(** ** Worker-count validation *)

Lemma int_raises_ValueError (s : string) (e : Exn) :
  PyString.int s = Raise e -> exists msg, e = ValueError msg.
Proof.
  unfold PyString.int.
  destruct (match PyString.skip_int_space s with
            | String "-" t => (true, t)
            | String "+" t => (false, t)
            | t => (false, t)
            end) as [negative digits].
  destruct (PyString.parse_digits 0 0 false digits) as [[[value count] rest]|].
  - destruct (PyString.max_str_digits <? count).
    + intros [= <-]. eexists. reflexivity.
    + destruct (PyString.skip_int_space rest); intros [= <-].
      eexists. reflexivity.
  - intros [= <-]. eexists. reflexivity.
Qed.

Section Validation.

Variable env : Env.
Variable order : list nat.

(** An argument that is no integer, or an integer below 1, makes the CLI
    print the problem and the usage line and exit with status 1 before
    anything is launched. *)
Lemma cli_main_rejects (globals : list (string * Cli.Value))
    (prog arg : string) (rest : list string) :
  (forall n, PyString.int arg = Ok n -> n < 1) ->
  exists msg,
    Cli.main globals env order (prog :: arg :: rest)
    = ([ Print ("Invalid argument: " ++ msg)%string;
         Print ("Usage: " ++ prog ++ " [number_of_containers]")%string ],
       Raise (SystemExit 1)).
Proof.
  intros Hbad. unfold Cli.main.
  replace (1 <? Z.of_nat (List.length (prog :: arg :: rest))) with true
    by (symmetry; apply Z.ltb_lt; cbn [List.length]; lia).
  cbn [nth].
  destruct (PyString.int arg) as [n|e] eqn:Hint.
  - specialize (Hbad n eq_refl).
    exists "Number must be positive".
    unfold lift, bind, try_except. cbn [fst snd].
    destruct (Z.ltb_spec n 1); [reflexivity | lia].
  - destruct (int_raises_ValueError _ _ Hint) as [msg ->].
    exists msg. reflexivity.
Qed.

(** The same for the worker-count field of the GUI: an error dialog,
    and [run_containers] returns at once. *)
Lemma gui_run_rejects (self : Gui.DockerRunnerGUI) :
  (forall n, PyString.int (Gui.max_workers_var self) = Ok n -> n < 1) ->
  exists msg,
    Gui.run_containers env order self
    = ([ShowError "Invalid Input"
          ("Max workers must be a positive integer: " ++ msg)%string],
       Ok tt).
Proof.
  intros Hbad. unfold Gui.run_containers, Gui.validate_max_workers.
  destruct (PyString.int (Gui.max_workers_var self)) as [n|e] eqn:Hint.
  - specialize (Hbad n eq_refl).
    exists "Max workers must be at least 1".
    unfold lift, bind, try_except. cbn [fst snd].
    destruct (Z.ltb_spec n 1); [reflexivity | lia].
  - destruct (int_raises_ValueError _ _ Hint) as [msg ->].
    exists msg. reflexivity.
Qed.

(** With a valid worker count (or none) the CLI announces the run,
    launches its three tasks and dies of the [NameError]. *)
Lemma cli_main_accepts (prog arg : string) (rest : list string) (n : Z) :
  PyString.int arg = Ok n ->
  1 <= n ->
  Permutation order [0; 1; 2]%nat ->
  Cli.main Cli.module_globals env order (prog :: arg :: rest)
  = (Print ("Running " ++ py_str n ++ " Docker containers in parallel...")%string
       :: map (Cli.launch env) ["test 1"; "test 2"; "test 3"]%string,
     Raise (NameError "index")).
Proof.
  intros Hint Hn Hperm. unfold Cli.main.
  replace (1 <? Z.of_nat (List.length (prog :: arg :: rest))) with true
    by (symmetry; apply Z.ltb_lt; cbn [List.length]; lia).
  cbn [nth]. rewrite Hint.
  match goal with |- context [try_except ?body ?handler] =>
    replace (try_except body handler) with (ret n)
  end.
  2:{ unfold lift, bind, try_except. cbn [fst snd].
      destruct (Z.ltb_spec n 1); [lia | reflexivity]. }
  cbn [bind ret emit app].
  rewrite (cli_dispatch_raises env Cli.module_globals eq_refl order n);
    [reflexivity | exact Hn | discriminate | exact Hperm].
Qed.

End Validation.

(** ** The sort of the CLI dispatcher *)

Section SortByKey.

Lemma ltb_lt (a b : string) : String.ltb a b = true <-> String_as_OT.lt a b.
Proof.
  unfold String.ltb. rewrite <- String_as_OT.cmp_lt. unfold String_as_OT.cmp.
  destruct (String.compare a b); split; congruence.
Qed.

Lemma ltb_asym (a b : string) : String.ltb a b = true -> String.ltb b a = false.
Proof.
  unfold String.ltb. rewrite (String.compare_antisym a b).
  destruct (String.compare b a); cbn; congruence.
Qed.

Lemma ltb_false_trans (a b c : string) :
  String.ltb b a = false -> String.ltb c b = false -> String.ltb c a = false.
Proof.
  intros Hba Hcb.
  destruct (String.ltb c a) eqn:Hca; [|reflexivity].
  (* c < a, not b < a, not c < b: compare b with a and c *)
  assert (Hab : a = b \/ String.ltb a b = true).
  { unfold String.ltb in *. rewrite (String.compare_antisym b a) in Hba.
    destruct (String.compare a b) eqn:E; cbn in Hba.
    - left. apply String.compare_eq_iff. exact E.
    - right. reflexivity.
    - discriminate. }
  destruct Hab as [->|Hab]; [congruence|].
  apply ltb_lt in Hca, Hab.
  pose proof (String_as_OT.lt_trans _ _ _ Hca Hab) as Hcb'.
  apply ltb_lt in Hcb'. congruence.
Qed.


Lemma key_le_trans (a b c : Cli.Outcome) : Cli.key_le a b -> Cli.key_le b c -> Cli.key_le a c.
Proof.
  unfold Cli.key_le, Cli.value_lt.
  destruct (ident a) as [x|x|x], (ident b) as [y|y|y], (ident c) as [z|z|z];
    try discriminate; intros [= H1] [= H2]; f_equal.
  - eapply ltb_false_trans; eassumption.
  - destruct (Z.ltb_spec y x), (Z.ltb_spec z y), (Z.ltb_spec z x);
      try discriminate; try reflexivity; lia.
Qed.

Lemma insert_by_key_sorted (r : Cli.Outcome) (sorted : list Cli.Outcome) :
  Cli.str_keyed r -> Forall Cli.str_keyed sorted ->
  StronglySorted Cli.key_le sorted ->
  exists l, Cli.insert_by_key r sorted = Ok l
            /\ Permutation l (r :: sorted)
            /\ StronglySorted Cli.key_le l.
Proof.
  intros [s Hs] Hkeys Hsorted.
  induction Hsorted as [|r' rest Hrest IH Hall].
  - exists [r]. repeat split; [apply Permutation_refl | repeat constructor].
  - inversion Hkeys as [|? ? [s' Hs'] Hkeys']; subst.
    cbn [Cli.insert_by_key]. unfold Cli.value_lt at 1. rewrite Hs, Hs'.
    cbn [rbind].
    destruct (String.ltb s' s) eqn:Hlt.
    + destruct (IH Hkeys') as [l [Hl [Hperm Hsl]]]. rewrite Hl. cbn [rbind].
      exists (r' :: l). split; [reflexivity|]. split.
      * rewrite Hperm. apply perm_swap.
      * constructor; [exact Hsl|].
        apply (Permutation_Forall (Permutation_sym Hperm)).
        constructor; [|exact Hall].
        unfold Cli.key_le, Cli.value_lt. rewrite Hs, Hs'. f_equal.
        apply ltb_asym. exact Hlt.
    + exists (r :: r' :: rest). split; [reflexivity|].
      split; [apply Permutation_refl|].
      assert (Hrr' : Cli.key_le r r').
      { unfold Cli.key_le, Cli.value_lt. rewrite Hs, Hs', Hlt. reflexivity. }
      constructor; [constructor; assumption|].
      constructor; [exact Hrr'|].
      eapply Forall_impl; [|exact Hall].
      intros x Hx. eapply key_le_trans; eassumption.
Qed.

(** On string keys the sort returns a sorted permutation of its
    argument. *)
Lemma sort_by_key_sorted (results : list Cli.Outcome) :
  Forall Cli.str_keyed results ->
  exists l, Cli.sort_by_key results = Ok l
            /\ Permutation l results
            /\ StronglySorted Cli.key_le l.
Proof.
  induction 1 as [|r rest Hr Hrest [l [Hl [Hperm Hsl]]]].
  - exists []. repeat split; constructor.
  - cbn [Cli.sort_by_key]. rewrite Hl. cbn [rbind].
    destruct (insert_by_key_sorted r l Hr) as [l' [Hl' [Hperm' Hsl']]].
    + apply (Permutation_Forall (Permutation_sym Hperm)). exact Hrest.
    + exact Hsl.
    + exists l'. split; [exact Hl'|]. split; [|exact Hsl'].
      rewrite Hperm'. constructor. exact Hperm.
Qed.






End SortByKey.

(** ** Examples of whole runs *)

Example cli_report_empty_output :
  printed (trace (Cli.aggregate_and_display_results
                    [(Cli.VStr "test 1", Some "", None)]))
  = [ Cli.newline ++ Report.rule 50; "DOCKER CONTAINER RESULTS";
      Report.rule 50 ++ Cli.newline;
      "Container test 1: FAILED"; "  Error: None"; "";
      Report.rule 50; "SUMMARY: 0 successful, 1 failed"; Report.rule 50 ]%string.
Proof. reflexivity. Qed.

Example gui_run_two_commands :
  Gui.run_containers (env_always (Exited 0 "done" "")) [1; 0]%nat
    {| Gui.command_entries := ["b"; "  "; "a"]; Gui.max_workers_var := " 2 " |}
  = ([ ButtonConfig "disabled"; TextDelete;
       TextInsert ("Running 2 Docker containers with max 2 workers..."
                   ++ Gui.newline ++ Gui.newline);
       TextUpdate;
       Gui.launch (env_always (Exited 0 "done" "")) "b";
       Gui.launch (env_always (Exited 0 "done" "")) "a" ]
     ++ map TextInsert
          (Report.gui_report [("a", Some "done", None); ("b", Some "done", None)])
     ++ [TextSee; ButtonConfig "normal"],
     Ok tt).
Proof. reflexivity. Qed.

Example cli_main_bad_arguments :
  Cli.main Cli.module_globals (env_always (Exited 0 "hi" "")) [0; 1; 2]%nat
    ["docker_runner.py"; "abc"]
  = ([ Print "Invalid argument: invalid literal for int() with base 10: 'abc'";
       Print "Usage: docker_runner.py [number_of_containers]" ],
     Raise (SystemExit 1))
  /\ Cli.main Cli.module_globals (env_always (Exited 0 "hi" "")) [0; 1; 2]%nat
       ["docker_runner.py"; "0"]
     = ([ Print "Invalid argument: Number must be positive";
          Print "Usage: docker_runner.py [number_of_containers]" ],
        Raise (SystemExit 1)).
Proof. split; reflexivity. Qed.

(** A worker count that [str.strip] would clean but [int()] refuses. *)
Example gui_run_file_separator_count :
  Gui.run_containers (env_always (Exited 0 "done" "")) [0]%nat
    {| Gui.command_entries := ["ls"];
       Gui.max_workers_var := String (ascii_of_N 28) "2" |}
  = ([ ShowError "Invalid Input"
         ("Max workers must be a positive integer: "
          ++ "invalid literal for int() with base 10: '\x1c2'") ],
     Ok tt).
Proof. reflexivity. Qed.

(** A run of the GUI started in a directory that is gone. *)
Example gui_run_cwd_gone :
  Full.gui_run_containers
    {| Full.env := env_always (Exited 0 "done" "");
       Full.getcwd_error := fun _ => Some "[Errno 2] No such file or directory" |}
    [1; 0]%nat [0; 1]%nat
    {| Gui.command_entries := ["a"; "b"]; Gui.max_workers_var := "2" |}
  = ([ ButtonConfig "disabled"; TextDelete;
       TextInsert ("Running 2 Docker containers with max 2 workers..."
                   ++ Gui.newline ++ Gui.newline);
       TextUpdate;
       TextInsert (Gui.newline ++ "ERROR: [Errno 2] No such file or directory"
                   ++ Gui.newline);
       TextSee; ButtonConfig "normal" ],
     Ok tt).
Proof. reflexivity. Qed.

(** Two workers that start the second task first. *)
Example gui_dispatch_two_workers :
  Full.gui_run_containers_parallel
    (Full.world_of (env_always (Undecodable "bad byte"))) [1; 0]%nat [0; 1]%nat
    ["a"; "b"] 2
  = ([ Gui.launch (env_always (Undecodable "bad byte")) "b";
       Gui.launch (env_always (Undecodable "bad byte")) "a" ],
     Ok [ ("a", None, Some "Error: bad byte");
          ("b", None, Some "Error: bad byte") ]).
Proof. reflexivity. Qed.

(* ================================================================== *)
(** * The claims *)

(** C1 (the dispatcher returns one outcome per task). The dispatcher of
    [docker_runner.py] does not: at the call [main] makes by default it
    launches the three tasks and raises [NameError] for the unbound
    name [index], whatever the processes do; [cli_dispatch_raises] has
    the same for every task list that is not empty, every positive
    worker count and every completion order. The dispatcher of the GUI
    does return one outcome per task ([gui_dispatch_complete]). *)
Theorem cli_dispatch_returns_no_batch :
  forall env : Env,
    Cli.run_containers_parallel Cli.module_globals env [0; 1; 2]%nat 5
      ["test 1"; "test 2"; "test 3"]
    = (map (Cli.launch env) ["test 1"; "test 2"; "test 3"],
       Raise (NameError "index")).
Proof.
  intros env.
  apply (cli_dispatch_raises env Cli.module_globals module_globals_no_index).
  - lia.
  - discriminate.
  - apply Permutation_refl.
Qed.

(** C2 (the executor never lets an exception out). The executor of
    [docker_runner.py] always does: after the process was run, each of
    its three [return] statements reads the unbound name [index], and
    the [NameError] raised inside an [except] clause is not caught. The
    executor of the GUI always returns ([gui_executor_returns]). *)
Theorem cli_executor_always_raises :
  forall (env : Env) (command : string),
    outcome (Cli.run_docker_container Cli.module_globals env command)
    = Raise (NameError "index").
Proof.
  intros env command.
  rewrite (cli_executor_raises env command _ module_globals_no_index).
  reflexivity.
Qed.

(** C3 (the batch is sorted by identifier, so its order does not depend
    on completion order). The dispatcher of the GUI does not sort: for
    the tasks [a] and [b] the two completion orders give the two
    different orders of the batch. The dispatcher of [docker_runner.py]
    has the sorting step, which does make the order independent of the
    completion order ([cli_collect_sort_order_independent]), but with
    tasks to run it raises before it gets there
    ([cli_dispatch_raises]). *)
Theorem gui_dispatch_order_follows_completion :
  forall env : Env,
  exists r1 r2 : list Gui.Outcome,
    outcome (Gui.run_containers_parallel env [0; 1]%nat ["a"; "b"] 2) = Ok r1
    /\ outcome (Gui.run_containers_parallel env [1; 0]%nat ["a"; "b"] 2) = Ok r2
    /\ map ident r1 = ["a"; "b"]
    /\ map ident r2 = ["b"; "a"]
    /\ r1 <> r2.
Proof.
  intros env.
  destruct (gui_dispatch_spec env [0; 1]%nat ["a"; "b"] 2 ltac:(lia)) as [r1 [H1 F1]].
  destruct (gui_dispatch_spec env [1; 0]%nat ["a"; "b"] 2 ltac:(lia)) as [r2 [H2 F2]].
  apply Forall2_ident_map in F1, F2. cbn in F1, F2.
  exists r1, r2. rewrite H1, H2.
  repeat split; try assumption.
  intros Heq. rewrite Heq, F2 in F1. discriminate.
Qed.

(** C4, as amended (exactly one of output and error is set). In every
    tuple the executor returns exactly one of the output and the error
    is set, never both and never neither: the output is set exactly
    when the execution succeeded, and it may then be the empty string;
    the error is set, and then non-empty, exactly when the execution
    failed. *)
Theorem executor_outcome_exactly_one_set :
  forall (env : Env) (command : string) (o : Gui.Outcome),
    outcome (Gui.run_docker_container env command) = Ok o ->
    one_field_set (launcher env (Gui.docker_command env command)) o.
Proof.
  intros env command o.
  destruct (launcher env (Gui.docker_command env command))
    as [rc out err|msg|msg] eqn:H.
  - destruct (Z.eq_dec rc 0) as [->|Hrc].
    + rewrite (gui_executor_exit_zero _ _ _ _ H). intros [= <-].
      repeat split.
    + rewrite (gui_executor_exit_nonzero _ _ _ _ _ Hrc H). intros [= <-].
      unfold one_field_set, succeeded.
      destruct (Z.eqb_spec rc 0); [contradiction|]. repeat split.
  - rewrite (gui_executor_not_started _ _ _ H). intros [= <-]. repeat split.
  - rewrite (gui_executor_undecodable _ _ _ H). intros [= <-]. repeat split.
Qed.

(** The invariant at a process that exits with status 0 and prints
    nothing. *)
Lemma executor_outcome_exactly_one_set_witness :
  one_field_set (Exited 0 "" "") ("test 1", Some "", @None string).
Proof.
  apply (executor_outcome_exactly_one_set (env_always (Exited 0 "" "")) "test 1").
  reflexivity.
Defined.

(** C4, as stated, fails: a process that exits with status 0 and an
    empty stdout gives a tuple in which neither the output nor the error
    is a non-empty string. *)
Lemma executor_empty_stdout_counterexample :
  outcome (Gui.run_docker_container (env_always (Exited 0 "" "")) "test 1")
  = Ok ("test 1", Some "", None)
  /\ succeeded (Exited 0 "" "") = true
  /\ PyString.truthy (output ("test 1", Some "", @None string)) = false
  /\ PyString.truthy (error ("test 1", Some "", @None string)) = false.
Proof. repeat split. Qed.

(** C5 (exit status 0 gives the trimmed stdout as output and no error).
    With stdout [hello] and exit status 0 the executor of
    [docker_runner.py] raises [NameError] instead; the executor of the
    GUI returns the tuple the claim describes. *)
Theorem cli_executor_exit_zero_raises :
  forall (cwd command err : string),
    let env := {| getcwd := cwd; launcher := fun _ => Exited 0 "hello" err |} in
    outcome (Cli.run_docker_container Cli.module_globals env command)
    = Raise (NameError "index")
    /\ outcome (Gui.run_docker_container env command)
       = Ok (command, Some "hello", None).
Proof.
  intros cwd command err env. split.
  - rewrite (cli_executor_raises env command _ module_globals_no_index).
    reflexivity.
  - rewrite (gui_executor_exit_zero env command "hello" err eq_refl).
    reflexivity.
Qed.

(** C6 (a non-zero exit status gives no output and an error built from
    stderr). With exit status 2 and stderr [boom] the executor of
    [docker_runner.py] raises [NameError] instead; the executor of the
    GUI returns the error [Error: boom]. *)
Theorem cli_executor_exit_nonzero_raises :
  forall (cwd command out : string),
    let env := {| getcwd := cwd; launcher := fun _ => Exited 2 out "boom" |} in
    outcome (Cli.run_docker_container Cli.module_globals env command)
    = Raise (NameError "index")
    /\ outcome (Gui.run_docker_container env command)
       = Ok (command, None, Some "Error: boom")
    /\ PyString.contains "boom" "Error: boom" = true.
Proof.
  intros cwd command out env. split; [|split].
  - rewrite (cli_executor_raises env command _ module_globals_no_index).
    reflexivity.
  - rewrite (gui_executor_exit_nonzero env command 2 out "boom"
               ltac:(discriminate) eq_refl).
    reflexivity.
  - reflexivity.
Qed.

(** C7 (an invalid worker count is rejected before anything runs; a
    valid one ends in exit status 0 after the report). The first half
    holds ([cli_main_rejects], [gui_run_rejects]). The second does not:
    with the valid count 2 the CLI prints the announcement, launches its
    three tasks, prints no report and ends with exit status 1. *)
Theorem cli_main_valid_count_exits_1 :
  forall env : Env,
    let run := Cli.main Cli.module_globals env [0; 1; 2]%nat
                 ["docker_runner.py"; "2"] in
    exit_status run = 1
    /\ outcome run = Raise (NameError "index")
    /\ printed (trace run) = ["Running 2 Docker containers in parallel..."]
    /\ launches (trace run) = 3%nat.
Proof.
  intros env run. subst run.
  rewrite (cli_main_accepts env [0; 1; 2]%nat "docker_runner.py" "2" [] 2
             eq_refl ltac:(lia) (Permutation_refl _)).
  repeat split.
Qed.

(** C9 (the report). Both renderers produce the report of [Report]: an
    outcome is shown and counted as a success exactly when its output is
    a non-empty string, the two counts add up to the number of outcomes,
    and an outcome with the empty string as output and no error, as the
    executor returns it for a process that exits with status 0 and
    prints only whitespace, is shown as failed with the error [None]. *)
Theorem report_classifies_by_truthiness :
  (forall results : list Cli.Outcome,
      Cli.aggregate_and_display_results results
      = (map Print (Report.cli_report results), Ok tt))
  /\ (forall results : list Gui.Outcome,
         Gui.display_results results
         = (map TextInsert (Report.gui_report results) ++ [TextSee], Ok tt))
  /\ (forall (I : Type) (results : list (I * option string * option string)),
         Report.successes results + Report.failures results
         = Z.of_nat (List.length results))
  /\ (forall (I : Type) (r : I * option string * option string),
         Report.is_success r = true
         <-> exists s, output r = Some s /\ s <> EmptyString)
  /\ (forall index : Cli.Value,
         Report.cli_block (index, Some "", None)
         = [ "Container " ++ py_str index ++ ": FAILED"; "  Error: None"; "" ]%string)
  /\ (forall (i : Z) (command : string),
         Report.gui_block (i, (command, Some "", None))
         = [ "Container " ++ py_str i ++ " - Command: " ++ command ++ Gui.newline;
             "  Status: FAILED" ++ Gui.newline;
             "  Error: None" ++ Gui.newline;
             Gui.newline ]%string)
  /\ (forall (env : Env) (command out err : string),
         launcher env (Gui.docker_command env command) = Exited 0 out err ->
         PyString.strip out = EmptyString ->
         outcome (Gui.run_docker_container env command) = Ok (command, Some "", None)
         /\ Report.successes [(command, Some "", @None string)] = 0
         /\ Report.failures [(command, Some "", @None string)] = 1).
Proof.
  split; [exact cli_report_spec|].
  split; [exact gui_report_spec|].
  split; [intros I results; apply successes_failures_partition|].
  split.
  { intros I [[i [[|c s]|]] e]; cbn; split.
    - discriminate.
    - intros [s [[= <-] Hs]]. contradiction.
    - intros _. eexists. split; [reflexivity | discriminate].
    - reflexivity.
    - discriminate.
    - intros [s [[=] _]]. }
  split; [reflexivity|].
  split; [reflexivity|].
  intros env command out err Hrun Hstrip.
  rewrite (gui_executor_exit_zero env command out err Hrun), Hstrip.
  repeat split.
Qed.

(** A process that prints two spaces and exits with status 0. *)
Lemma report_classifies_by_truthiness_witness :
  outcome (Gui.run_docker_container (env_always (Exited 0 "  " "")) "test 1")
  = Ok ("test 1", Some "", None)
  /\ Report.successes [("test 1", Some "", @None string)] = 0
  /\ Report.failures [("test 1", Some "", @None string)] = 1.
Proof.
  apply (proj2 (proj2 (proj2 (proj2 (proj2 (proj2 report_classifies_by_truthiness)))))
           (env_always (Exited 0 "  " "")) "test 1" "  " "");
    reflexivity.
Defined.

(** C10 (the two Fibonacci functions agree). [fibonacci(n)] is the empty
    list for [n <= 0]; for [n >= 1] it is a list of length [n] whose
    last element is what [fibonacci_recursive(n)] returns. *)
Theorem fibonacci_recursive_agrees :
  (forall n, n <= 0 -> Testit.fibonacci n = Ok [])
  /\ (forall n, 1 <= n ->
        exists l x,
          Testit.fibonacci n = Ok l
          /\ Z.of_nat (List.length l) = n
          /\ Testit.getitem l (-1) = Ok x
          /\ Testit.fibonacci_recursive n = Ok (Some x)).
Proof.
  split.
  - intros n Hn. unfold Testit.fibonacci.
    destruct (Z.leb_spec n 0); [reflexivity | lia].
  - intros n Hn.
    exists (Testit.fib_prefix (Z.to_nat n)), (Testit.fib (Z.to_nat n - 1)).
    split; [apply fibonacci_prefix; exact Hn|].
    split; [unfold Testit.fib_prefix; rewrite length_map, length_seq; lia|].
    split; [|apply (fibonacci_recursive_fib (Z.to_nat n)); lia].
    destruct (Z.to_nat n) as [|[|k]] eqn:E; [lia|reflexivity|].
    rewrite (fib_prefix_S (S k)), (fib_prefix_S k), <- app_assoc. cbn [app].
    replace (S (S k) - 1)%nat with (S k) by lia.
    apply getitem_last.
Qed.

(** The two functions at [-3] and at [10]. *)
Lemma fibonacci_recursive_agrees_witness :
  Testit.fibonacci (-3) = Ok []
  /\ exists l x,
       Testit.fibonacci 10 = Ok l
       /\ Z.of_nat (List.length l) = 10
       /\ Testit.getitem l (-1) = Ok x
       /\ Testit.fibonacci_recursive 10 = Ok (Some x).
Proof.
  split.
  - apply (proj1 fibonacci_recursive_agrees (-3)). lia.
  - apply (proj2 fibonacci_recursive_agrees 10). lia.
Defined.


(* ================================================================== *)
(** * Further properties *)

(** ** More on testit.py *)

Lemma fib_prefix_nth (k i : nat) :
  (i < k)%nat -> nth i (Testit.fib_prefix k) 0 = Testit.fib i.
Proof.
  intros Hi. unfold Testit.fib_prefix.
  change 0 with (Testit.fib 0). rewrite map_nth, seq_nth by exact Hi. reflexivity.
Qed.

Lemma fib_prefix_length (k : nat) : List.length (Testit.fib_prefix k) = k.
Proof. unfold Testit.fib_prefix. rewrite length_map, length_seq. reflexivity. Qed.

Lemma getitem_fib_prefix (k : nat) (i : Z) :
  0 <= i < Z.of_nat k ->
  Testit.getitem (Testit.fib_prefix k) i = Ok (Testit.fib (Z.to_nat i)).
Proof.
  intros Hi. unfold Testit.getitem. rewrite fib_prefix_length.
  destruct (Z.ltb_spec i 0); [lia|].
  destruct (Z.leb_spec 0 i); [|lia].
  destruct (Z.ltb_spec i (Z.of_nat k)); [|lia].
  cbn [andb]. rewrite fib_prefix_nth by lia. reflexivity.
Qed.

Lemma fib_nonneg_mono (k : nat) :
  0 <= Testit.fib k /\ Testit.fib k <= Testit.fib (S k).
Proof.
  induction k as [|k [IH0 IH1]]; [cbn; lia|].
  split; [lia|]. rewrite (fib_unfold k). lia.
Qed.

Lemma fib_mono (i j : nat) : (i <= j)%nat -> Testit.fib i <= Testit.fib j.
Proof.
  induction 1 as [|j _ IH]; [lia|].
  pose proof (fib_nonneg_mono j). lia.
Qed.

Lemma fibonacci_total (n : Z) :
  Testit.fibonacci n = Ok (Testit.fib_prefix (Z.to_nat n)).
Proof.
  destruct (Z.le_gt_cases n 0) as [Hn|Hn].
  - unfold Testit.fibonacci. destruct (Z.leb_spec n 0); [|lia].
    replace (Z.to_nat n) with 0%nat by lia. reflexivity.
  - apply fibonacci_prefix. lia.
Qed.

(** X1: every element of [fibonacci(n)] is what [fibonacci_recursive]
    returns for its position: [fibonacci(n)[i]] is
    [fibonacci_recursive(i + 1)] for [0 <= i < n]. *)
Theorem fibonacci_elements_agree :
  forall n i : Z,
    0 <= i < n ->
    exists l x,
      Testit.fibonacci n = Ok l
      /\ Testit.getitem l i = Ok x
      /\ Testit.fibonacci_recursive (i + 1) = Ok (Some x).
Proof.
  intros n i Hi.
  exists (Testit.fib_prefix (Z.to_nat n)), (Testit.fib (Z.to_nat i)).
  split; [apply fibonacci_total|].
  split; [apply getitem_fib_prefix; lia|].
  rewrite (fibonacci_recursive_fib (Z.to_nat (i + 1))) by lia.
  do 3 f_equal. lia.
Qed.

Lemma fibonacci_elements_agree_witness :
  exists l x,
    Testit.fibonacci 12 = Ok l
    /\ Testit.getitem l 7 = Ok x
    /\ Testit.fibonacci_recursive (7 + 1) = Ok (Some x).
Proof. apply (fibonacci_elements_agree 12 7). lia. Defined.

(** X2: a longer sequence extends a shorter one: for [m <= n] the list
    [fibonacci(m)] is a prefix of [fibonacci(n)]. *)
Theorem fibonacci_extends :
  forall m n : Z,
    m <= n ->
    exists lm rest,
      Testit.fibonacci m = Ok lm /\ Testit.fibonacci n = Ok (lm ++ rest).
Proof.
  intros m n Hmn.
  exists (Testit.fib_prefix (Z.to_nat m)),
         (map Testit.fib (seq (Z.to_nat m) (Z.to_nat n - Z.to_nat m))).
  split; [apply fibonacci_total|].
  rewrite fibonacci_total. f_equal. unfold Testit.fib_prefix.
  rewrite <- map_app, <- seq_app. do 2 f_equal. lia.
Qed.

Lemma fibonacci_extends_witness :
  exists lm rest,
    Testit.fibonacci 4 = Ok lm /\ Testit.fibonacci 9 = Ok (lm ++ rest).
Proof. apply (fibonacci_extends 4 9). lia. Defined.

(** X3: [fibonacci(n)] never raises; from the third element on, every
    element of the list is the sum of the two before it, and the list
    is non-negative and ascending. *)
Theorem fibonacci_recurrence_sorted :
  forall n : Z,
  exists l,
    Testit.fibonacci n = Ok l
    /\ (forall i, (2 <= i < List.length l)%nat ->
                  nth i l 0 = nth (i - 1) l 0 + nth (i - 2) l 0)
    /\ (forall i j, (i <= j < List.length l)%nat -> 0 <= nth i l 0 <= nth j l 0).
Proof.
  intros n. exists (Testit.fib_prefix (Z.to_nat n)).
  split; [apply fibonacci_total|]. rewrite fib_prefix_length. split.
  - intros i Hi. rewrite !fib_prefix_nth by lia.
    replace i with (S (S (i - 2))) at 1 by lia. rewrite fib_unfold.
    replace (i - 1)%nat with (S (i - 2)) by lia. lia.
  - intros i j Hij. rewrite !fib_prefix_nth by lia.
    pose proof (fib_nonneg_mono i). pose proof (fib_mono i j). lia.
Qed.

Lemma fibonacci_recurrence_sorted_witness :
  exists l,
    Testit.fibonacci 8 = Ok l
    /\ nth 5 l 0 = nth 4 l 0 + nth 3 l 0
    /\ 0 <= nth 2 l 0 <= nth 6 l 0.
Proof.
  destruct (fibonacci_recurrence_sorted 8) as [l [Hl [Hrec Hsorted]]].
  exists l. split; [exact Hl|].
  assert (Hlen : List.length l = 8%nat).
  { rewrite fibonacci_total in Hl. injection Hl as <-. reflexivity. }
  split.
  - apply (Hrec 5%nat). rewrite Hlen. lia.
  - apply (Hsorted 2%nat 6%nat). rewrite Hlen. lia.
Defined.

(** X4: [fibonacci_recursive(n)] never raises (it never adds [None]); it
    returns [None] exactly for [n <= 0] and a non-negative integer
    otherwise. *)
Theorem fibonacci_recursive_total :
  forall n : Z,
  exists r,
    Testit.fibonacci_recursive n = Ok r
    /\ (r = None <-> n <= 0)
    /\ (forall x, r = Some x -> 0 <= x).
Proof.
  intros n. destruct (Z.le_gt_cases n 0) as [Hn|Hn].
  - exists None. rewrite Testit.fibonacci_recursive_equation_1.
    destruct (Z_le_gt_dec n 0); [|lia].
    split; [reflexivity|]. split; [tauto | discriminate].
  - exists (Some (Testit.fib (Z.to_nat n - 1))).
    split; [apply (fibonacci_recursive_fib (Z.to_nat n)); lia|].
    split; [split; [discriminate | lia]|].
    intros x [= <-]. apply fib_nonneg_mono.
Qed.

Lemma fibonacci_recursive_total_witness :
  exists r, Testit.fibonacci_recursive (-2) = Ok r /\ r = None.
Proof.
  destruct (fibonacci_recursive_total (-2)) as [r [Hr [Hnone _]]].
  exists r. split; [exact Hr | apply Hnone; lia].
Defined.

(** ** Trimming *)

Lemma rstrip_cons (c : ascii) (s : string) :
  PyString.rstrip (String c s)
  = match PyString.rstrip s with
    | EmptyString =>
        if PyString.is_space c then EmptyString else String c EmptyString
    | r => String c r
    end.
Proof. reflexivity. Qed.

Lemma rstrip_idempotent (s : string) :
  PyString.rstrip (PyString.rstrip s) = PyString.rstrip s.
Proof.
  induction s as [|c s IH]; [reflexivity|].
  rewrite rstrip_cons.
  destruct (PyString.rstrip s) as [|c' r] eqn:Hr.
  - destruct (PyString.is_space c) eqn:Hc; [reflexivity|].
    rewrite rstrip_cons. cbn [PyString.rstrip]. rewrite Hc. reflexivity.
  - rewrite rstrip_cons, IH. reflexivity.
Qed.

Lemma lstrip_head (s : string) :
  PyString.lstrip s = EmptyString
  \/ exists c t, PyString.lstrip s = String c t /\ PyString.is_space c = false.
Proof.
  induction s as [|c s IH]; [left; reflexivity|].
  cbn [PyString.lstrip]. destruct (PyString.is_space c) eqn:Hc; [exact IH|].
  right. exists c, s. split; [reflexivity | exact Hc].
Qed.

Lemma rstrip_keeps_head (c : ascii) (t : string) :
  PyString.is_space c = false ->
  exists r, PyString.rstrip (String c t) = String c r.
Proof.
  intros Hc. rewrite rstrip_cons.
  destruct (PyString.rstrip t); [rewrite Hc|]; eexists; reflexivity.
Qed.

Lemma lstrip_strip (s : string) :
  PyString.lstrip (PyString.strip s) = PyString.strip s.
Proof.
  unfold PyString.strip.
  destruct (lstrip_head s) as [->|[c [t [-> Hc]]]]; [reflexivity|].
  destruct (rstrip_keeps_head c t Hc) as [r ->].
  cbn [PyString.lstrip]. rewrite Hc. reflexivity.
Qed.

Lemma rstrip_strip (s : string) :
  PyString.rstrip (PyString.strip s) = PyString.strip s.
Proof. unfold PyString.strip. apply rstrip_idempotent. Qed.

Lemma strip_idempotent (s : string) :
  PyString.strip (PyString.strip s) = PyString.strip s.
Proof.
  unfold PyString.strip at 1. rewrite lstrip_strip. apply rstrip_strip.
Qed.

Lemma rstrip_app_space (s : string) (c : ascii) :
  PyString.is_space c = true ->
  PyString.rstrip (s ++ String c EmptyString) = PyString.rstrip s.
Proof.
  intros Hc. induction s as [|a s IH].
  - cbn. rewrite Hc. reflexivity.
  - cbn [append]. rewrite !rstrip_cons, IH. reflexivity.
Qed.

Lemma lstrip_app (s t : string) :
  PyString.lstrip (s ++ t)
  = match PyString.lstrip s with
    | EmptyString => PyString.lstrip t
    | r => (r ++ t)%string
    end.
Proof.
  induction s as [|a s IH]; cbn [append PyString.lstrip].
  - destruct (PyString.lstrip t); reflexivity.
  - destruct (PyString.is_space a); [exact IH | reflexivity].
Qed.

(** A whitespace character at the end does not change the trimmed
    string. *)
Lemma strip_app_space (s : string) (c : ascii) :
  PyString.is_space c = true ->
  PyString.strip (s ++ String c EmptyString) = PyString.strip s.
Proof.
  intros Hc. unfold PyString.strip. rewrite lstrip_app.
  destruct (PyString.lstrip s) as [|a r] eqn:Hs.
  - cbn. rewrite Hc. reflexivity.
  - apply (rstrip_app_space (String a r) c Hc).
Qed.

(** ** The executor of the GUI *)

Lemma bind_ret_l {A B} (a : A) (k : A -> Py B) : bind (ret a) k = k a.
Proof. unfold bind, ret. destruct (k a). reflexivity. Qed.

Lemma full_gui_executor_with_cwd (w : Full.World) (command : string) :
  Full.getcwd_error w command = None ->
  Full.gui_run_docker_container w command
  = Gui.run_docker_container (Full.env w) command.
Proof.
  intros H. unfold Full.gui_run_docker_container, Full.os_getcwd.
  rewrite H.
  exact (bind_ret_l _ (fun _ => Gui.run_docker_container (Full.env w) command)).
Qed.

Lemma full_gui_executor_without_cwd (w : Full.World) (command msg : string) :
  Full.getcwd_error w command = Some msg ->
  Full.gui_run_docker_container w command = ([], Raise (OSError msg)).
Proof.
  intros H. unfold Full.gui_run_docker_container, Full.os_getcwd.
  rewrite H. reflexivity.
Qed.

(** X5: one exception only leaves the executor of the GUI, the one
    [os.getcwd()] raises while the list [cmd] is built, and nothing is
    launched then. Once [os.getcwd()] has returned, the executor runs
    the launcher once and returns a tuple whose first field is the
    command, whatever the process does. *)
Theorem gui_executor_raises_only_for_getcwd :
  forall (w : Full.World) (command : string),
    (Full.getcwd_error w command = None ->
     exists o : Gui.Outcome,
       Full.gui_run_docker_container w command
       = ([Gui.launch (Full.env w) command], Ok o)
       /\ ident o = command)
    /\ (forall msg,
           Full.getcwd_error w command = Some msg ->
           Full.gui_run_docker_container w command = ([], Raise (OSError msg))).
Proof.
  intros w command. split.
  - intros H. rewrite (full_gui_executor_with_cwd w command H).
    apply gui_executor_returns.
  - apply full_gui_executor_without_cwd.
Qed.

Lemma gui_executor_raises_only_for_getcwd_witness :
  (exists o : Gui.Outcome,
      Full.gui_run_docker_container
        (Full.world_of (env_always (Undecodable "bad byte"))) "ls"
      = ([Gui.launch (env_always (Undecodable "bad byte")) "ls"], Ok o)
      /\ ident o = "ls")
  /\ Full.gui_run_docker_container
       {| Full.env := env_always (Exited 0 "x" "");
          Full.getcwd_error := fun _ => Some "[Errno 2] No such file or directory" |}
       "ls"
     = ([], Raise (OSError "[Errno 2] No such file or directory")).
Proof.
  split.
  - apply (proj1 (gui_executor_raises_only_for_getcwd
                    (Full.world_of (env_always (Undecodable "bad byte"))) "ls")).
    reflexivity.
  - apply (proj2 (gui_executor_raises_only_for_getcwd
                    {| Full.env := env_always (Exited 0 "x" "");
                       Full.getcwd_error :=
                         fun _ => Some "[Errno 2] No such file or directory" |}
                    "ls")).
    reflexivity.
Defined.

(** X6: in a tuple returned by the executor of the GUI an output is
    trimmed (trimming it again changes nothing) and an error starts
    with [Error: ]. *)
Theorem gui_executor_fields_normalised :
  forall (env : Env) (command : string) (o : Gui.Outcome),
    outcome (Gui.run_docker_container env command) = Ok o ->
    (forall s, output o = Some s -> PyString.strip s = s)
    /\ (forall e, error o = Some e -> String.prefix "Error: " e = true).
Proof.
  intros env command o.
  destruct (launcher env (Gui.docker_command env command))
    as [rc out err|msg|msg] eqn:H.
  - destruct (Z.eq_dec rc 0) as [->|Hrc].
    + rewrite (gui_executor_exit_zero _ _ _ _ H). intros [= <-]. split.
      * intros s [= <-]. apply strip_idempotent.
      * discriminate.
    + rewrite (gui_executor_exit_nonzero _ _ _ _ _ Hrc H). intros [= <-]. split.
      * discriminate.
      * intros e [= <-]. cbn. destruct (PyString.strip err); reflexivity.
  - rewrite (gui_executor_not_started _ _ _ H). intros [= <-]. split.
    + discriminate.
    + intros e [= <-]. cbn. destruct msg; reflexivity.
  - rewrite (gui_executor_undecodable _ _ _ H). intros [= <-]. split.
    + discriminate.
    + intros e [= <-]. cbn. destruct msg; reflexivity.
Qed.

Lemma gui_executor_fields_normalised_witness :
  (forall s, output ("ls", Some "a b", @None string) = Some s -> PyString.strip s = s)
  /\ (forall e, error ("ls", Some "a b", @None string) = Some e ->
                String.prefix "Error: " e = true).
Proof.
  apply (gui_executor_fields_normalised (env_always (Exited 0 "  a b  " "")) "ls").
  reflexivity.
Defined.

(** ** Reading the commands of the form *)

Lemma gui_newline_is_space : PyString.is_space (ascii_of_N 10) = true.
Proof. reflexivity. Qed.

Lemma gui_read_commands_filter :
  forall self : Gui.DockerRunnerGUI,
    Gui.read_commands self
    = filter (fun c => negb (String.eqb c ""))
             (map PyString.strip (Gui.command_entries self))
    /\ Forall (fun c => c <> EmptyString /\ PyString.strip c = c)
              (Gui.read_commands self).
Proof.
  intros self.
  assert (Heq : Gui.read_commands self
                = filter (fun c => negb (String.eqb c ""))
                         (map PyString.strip (Gui.command_entries self))).
  { unfold Gui.read_commands. f_equal. apply map_ext. intros content.
    apply strip_app_space. reflexivity. }
  split; [exact Heq|].
  rewrite Heq. apply Forall_forall. intros c Hc.
  apply filter_In in Hc. destruct Hc as [Hin Hne].
  apply in_map_iff in Hin. destruct Hin as [content [<- _]].
  split; [|apply strip_idempotent].
  intros Hempty. rewrite Hempty in Hne. discriminate.
Qed.

(** X7: the commands [run_containers] reads from the form are the trimmed
    texts of the entries, in order, without the empty ones; the newline
    Tk appends to a text never shows. Every command read is non-empty
    and trimmed. *)
Theorem gui_read_commands_spec :
  forall self : Gui.DockerRunnerGUI,
    Gui.read_commands self
    = filter (fun c => negb (String.eqb c ""))
             (map PyString.strip (Gui.command_entries self))
    /\ Forall (fun c => c <> EmptyString /\ PyString.strip c = c)
              (Gui.read_commands self).
Proof. exact gui_read_commands_filter. Qed.

(** ** More on the dispatchers *)

Lemma pick_nil {A} (order : list nat) : Futures.pick order (@nil A) = [].
Proof.
  unfold Futures.pick. induction order as [|i order IH]; [reflexivity|].
  cbn [flat_map]. rewrite IH. destruct i; reflexivity.
Qed.

(** The runs with the whole of their environment: [os.getcwd()] may
    raise, and the workers start the tasks in any order. *)

Lemma full_gui_task (w : Full.World) (c : string) :
  (Full.has_cwd w c = true
   /\ exists o : Gui.Outcome,
        Full.gui_run_docker_container w c = ([Gui.launch (Full.env w) c], Ok o)
        /\ Gui.run_docker_container (Full.env w) c
           = ([Gui.launch (Full.env w) c], Ok o)
        /\ ident o = c)
  \/ (Full.has_cwd w c = false
      /\ exists msg,
           Full.getcwd_error w c = Some msg
           /\ Full.gui_run_docker_container w c = ([], Raise (OSError msg))).
Proof.
  unfold Full.has_cwd.
  destruct (Full.getcwd_error w c) as [msg|] eqn:H.
  - right. split; [reflexivity|]. exists msg. split; [reflexivity|].
    apply full_gui_executor_without_cwd. exact H.
  - left. split; [reflexivity|].
    destruct (gui_executor_returns (Full.env w) c) as [o [Ho Hid]].
    exists o. rewrite (full_gui_executor_with_cwd w c H). auto.
Qed.

Lemma full_cli_task (globals : list (string * Cli.Value)) (w : Full.World)
    (c : string) :
  Cli.lookup "index" globals = None ->
  (Full.has_cwd w c = true
   /\ Full.cli_run_docker_container globals w c
      = ([Cli.launch (Full.env w) c], Raise (NameError "index")))
  \/ (Full.has_cwd w c = false
      /\ exists msg,
           Full.getcwd_error w c = Some msg
           /\ Full.cli_run_docker_container globals w c
              = ([], Raise (OSError msg))).
Proof.
  intros Hidx.
  unfold Full.has_cwd, Full.cli_run_docker_container, Full.os_getcwd.
  destruct (Full.getcwd_error w c) as [msg|] eqn:H.
  - right. split; [reflexivity|]. exists msg. split; reflexivity.
  - left. split; [reflexivity|].
    rewrite (bind_ret_l _ (fun _ => Cli.run_docker_container globals (Full.env w) c)).
    apply cli_executor_raises. exact Hidx.
Qed.

(** The launches of the tasks that found the working directory, in the
    order in which the tasks were started. *)
Lemma full_gui_traces (w : Full.World) (l : list string) :
  flat_map (fun c => trace (Full.gui_run_docker_container w c)) l
  = map (Gui.launch (Full.env w)) (filter (Full.has_cwd w) l).
Proof.
  induction l as [|c l IH]; [reflexivity|].
  cbn [flat_map filter]. rewrite IH.
  destruct (full_gui_task w c) as [[Hc [o [-> _]]]|[Hc [msg [_ ->]]]];
    rewrite Hc; reflexivity.
Qed.

Lemma full_cli_traces (globals : list (string * Cli.Value)) (w : Full.World)
    (l : list string) :
  Cli.lookup "index" globals = None ->
  flat_map (fun c => trace (Full.cli_run_docker_container globals w c)) l
  = map (Cli.launch (Full.env w)) (filter (Full.has_cwd w) l).
Proof.
  intros Hidx. induction l as [|c l IH]; [reflexivity|].
  cbn [flat_map filter]. rewrite IH.
  destruct (full_cli_task globals w c Hidx) as [[Hc ->]|[Hc [msg [_ ->]]]];
    rewrite Hc; reflexivity.
Qed.

Lemma filter_permutation {A} (f : A -> bool) (l l' : list A) :
  Permutation l l' -> Permutation (filter f l) (filter f l').
Proof.
  induction 1 as [|x l l' _ IH|x y l|l l' l'' _ IH1 _ IH2]; cbn [filter].
  - constructor.
  - destruct (f x); [apply perm_skip|]; exact IH.
  - destruct (f x), (f y); try apply Permutation_refl. apply perm_swap.
  - exact (perm_trans IH1 IH2).
Qed.

Lemma filter_all {A} (f : A -> bool) (l : list A) :
  Forall (fun a => f a = true) l -> filter f l = l.
Proof.
  induction 1 as [|a l Ha _ IH]; [reflexivity|].
  cbn [filter]. rewrite Ha, IH. reflexivity.
Qed.

Lemma has_cwd_iff (w : Full.World) (c : string) :
  Full.has_cwd w c = true <-> Full.getcwd_error w c = None.
Proof.
  unfold Full.has_cwd. destruct (Full.getcwd_error w c); split; congruence.
Qed.

Lemma pick_In {A} (order : list nat) (l : list A) (a : A) :
  In a (Futures.pick order l) -> In a l.
Proof.
  unfold Futures.pick. intros H. apply in_flat_map in H.
  destruct H as [i [_ Hi]].
  destruct (nth_error l i) as [b|] eqn:Hn; [|contradiction].
  destruct Hi as [<-|[]]. apply (nth_error_In l i Hn).
Qed.

Lemma collect_loop_step {B} (r : B) (fs : list (Futures.Future B))
    (acc : list B) :
  for_loop (fun results future =>
              (result <- Futures.result future ;; ret (results ++ [result]))%py)
           (Ok r :: fs) acc
  = for_loop (fun results future =>
                (result <- Futures.result future ;; ret (results ++ [result]))%py)
             fs (acc ++ [r]).
Proof.
  cbn [for_loop]. unfold Futures.result, lift, ret. cbn [bind app].
  destruct (for_loop _ fs (acc ++ [r])) as [t res]. reflexivity.
Qed.

(** The collecting loop ends with all the values, or with the exception
    of the first future that raised. *)
Lemma collect_loop_cases {B} (fs : list (Futures.Future B)) (acc : list B) :
  (exists rs, fs = map Ok rs
              /\ for_loop (fun results future =>
                             (result <- Futures.result future ;;
                              ret (results ++ [result]))%py) fs acc
                 = ([], Ok (acc ++ rs)))
  \/ (exists e, In (Raise e) fs
                /\ for_loop (fun results future =>
                               (result <- Futures.result future ;;
                                ret (results ++ [result]))%py) fs acc
                   = ([], Raise e)).
Proof.
  revert acc. induction fs as [|[r|e] fs IH]; intros acc.
  - left. exists []. split; [reflexivity|]. cbn. rewrite app_nil_r. reflexivity.
  - destruct (IH (acc ++ [r])) as [[rs [-> Hrun]]|[e [Hin Hrun]]].
    + left. exists (r :: rs). split; [reflexivity|].
      exact (collect_loop_ok (r :: rs) acc).
    + right. exists e. split; [right; exact Hin|].
      rewrite collect_loop_step. exact Hrun.
  - right. exists e. split; [left; reflexivity | reflexivity].
Qed.

Lemma map_eq_Ok {A B} (f : A -> Res B) (l : list A) (rs : list B) :
  map f l = map Ok rs -> Forall2 (fun a r => f a = Ok r) l rs.
Proof.
  revert rs. induction l as [|a l IH]; intros [|r rs] H; try discriminate.
  - constructor.
  - injection H as Ha Hl. constructor; [exact Ha | apply IH; exact Hl].
Qed.

(** The dispatcher of the GUI, the pool accepted: the launches of the
    tasks that found the working directory, in the order in which the
    tasks were started; then the batch in completion order, or the
    [OSError] of the first completed task that found none. *)
Lemma full_gui_dispatch (w : Full.World) (started order : list nat)
    (commands : list string) (mw : Z) :
  1 <= mw ->
  exists r : Res (list Gui.Outcome),
    Full.gui_run_containers_parallel w started order commands mw
    = (map (Gui.launch (Full.env w))
           (filter (Full.has_cwd w) (Futures.pick started commands)), r)
    /\ ((exists results,
            r = Ok results
            /\ Forall2 (fun c o =>
                          Full.gui_run_docker_container w c
                          = ([Gui.launch (Full.env w) c], Ok o)
                          /\ Gui.run_docker_container (Full.env w) c
                             = ([Gui.launch (Full.env w) c], Ok o)
                          /\ ident o = c)
                       (Futures.pick order commands) results)
        \/ (exists c msg,
               In c (Futures.pick order commands)
               /\ Full.getcwd_error w c = Some msg
               /\ r = Raise (OSError msg))).
Proof.
  intros Hmw.
  unfold Full.gui_run_containers_parallel. rewrite pool_accepts by exact Hmw.
  unfold Full.submit_all, Gui.collect, Futures.as_completed, Futures.Future.
  cbn [bind ret app]. rewrite full_gui_traces, pick_map.
  destruct (collect_loop_cases
              (map (fun x => outcome (Full.gui_run_docker_container w x))
                   (Futures.pick order commands)) [])
    as [[rs [Hfs Hrun]]|[e [Hin Hrun]]].
  - exists (Ok rs). split.
    + unfold Futures.Future in Hrun. rewrite Hrun.
      cbn. rewrite !app_nil_r. reflexivity.
    + left. exists rs. split; [reflexivity|].
      apply map_eq_Ok in Hfs.
      eapply Forall2_impl; [|exact Hfs]. cbn beta. intros c o Hco.
      destruct (full_gui_task w c) as [[_ [o' [H1 [H2 H3]]]]|[_ [msg [_ H1]]]];
        rewrite H1 in Hco; [|discriminate].
      injection Hco as <-. auto.
  - exists (Raise e). split.
    + unfold Futures.Future in Hrun. rewrite Hrun.
      cbn. rewrite !app_nil_r. reflexivity.
    + right. apply in_map_iff in Hin. destruct Hin as [c [Hc Hin]].
      destruct (full_gui_task w c) as [[_ [o' [H1 _]]]|[_ [msg [Hmsg H1]]]];
        rewrite H1 in Hc; [discriminate|].
      injection Hc as <-. exists c, msg. auto.
Qed.

Lemma Forall2_In_l {A B} (R : A -> B -> Prop) (l : list A) (l' : list B) (a : A) :
  Forall2 R l l' -> In a l -> exists b, In b l' /\ R a b.
Proof.
  induction 1 as [|x y l l' Hxy _ IH]; intros Hin; [contradiction|].
  destruct Hin as [<-|Hin].
  - exists y. split; [left; reflexivity | exact Hxy].
  - destruct (IH Hin) as [b [Hb Hab]]. exists b. split; [right; exact Hb | exact Hab].
Qed.

(** The worker thread, for every world and every schedule. *)
Lemma full_gui_thread (w : Full.World) (started order : list nat)
    (commands : list string) (mw : Z) :
  1 <= mw ->
  let launched :=
    map (Gui.launch (Full.env w))
        (filter (Full.has_cwd w) (Futures.pick started commands)) in
  (exists results,
      Forall2 (fun c o =>
                 Full.gui_run_docker_container w c
                 = ([Gui.launch (Full.env w) c], Ok o)
                 /\ Gui.run_docker_container (Full.env w) c
                    = ([Gui.launch (Full.env w) c], Ok o)
                 /\ ident o = c)
              (Futures.pick order commands) results
      /\ Full.gui_run_containers_thread w started order commands mw
         = (launched ++ map TextInsert (Report.gui_report results)
            ++ [TextSee; ButtonConfig "normal"], Ok tt))
  \/ (exists c msg,
         In c (Futures.pick order commands)
         /\ Full.getcwd_error w c = Some msg
         /\ Full.gui_run_containers_thread w started order commands mw
            = (launched
               ++ [TextInsert (Gui.newline ++ "ERROR: " ++ msg ++ Gui.newline)%string;
                   TextSee; ButtonConfig "normal"], Ok tt)).
Proof.
  intros Hmw launched.
  destruct (full_gui_dispatch w started order commands mw Hmw)
    as [r [Hrun [[results [-> Hres]]|[c [msg [Hin [Hmsg ->]]]]]]].
  - left. exists results. split; [exact Hres|].
    unfold Full.gui_run_containers_thread. rewrite Hrun.
    cbn [bind]. rewrite gui_report_spec.
    cbn [try_except try_finally emit]. rewrite <- !app_assoc. reflexivity.
  - right. exists c, msg. split; [exact Hin|]. split; [exact Hmsg|].
    unfold Full.gui_run_containers_thread. rewrite Hrun.
    cbn [bind try_except is_Exception Gui.display_error emit try_finally].
    rewrite <- !app_assoc. reflexivity.
Qed.

Lemma full_gui_thread_invalid (w : Full.World) (started order : list nat)
    (commands : list string) (mw : Z) :
  mw <= 0 ->
  Full.gui_run_containers_thread w started order commands mw
  = ([ TextInsert (Gui.newline ++ "ERROR: max_workers must be greater than 0"
                   ++ Gui.newline)%string;
       TextSee; ButtonConfig "normal" ],
     Ok tt).
Proof.
  intros Hw.
  unfold Full.gui_run_containers_thread, Full.gui_run_containers_parallel,
    Futures.ThreadPoolExecutor.
  destruct (Z.leb_spec mw 0); [|lia]. reflexivity.
Qed.

Lemma launches_only (env : Env) (l : list string) :
  filter is_launch (map (Gui.launch env) l) = map (Gui.launch env) l.
Proof.
  induction l as [|c l IH]; [reflexivity|].
  cbn [map filter Gui.launch is_launch]. f_equal. exact IH.
Qed.

Lemma launched_permutation (w : Full.World) (started : list nat)
    (commands : list string) :
  Permutation started (seq 0 (List.length commands)) ->
  Permutation
    (map (Gui.launch (Full.env w))
         (filter (Full.has_cwd w) (Futures.pick started commands)))
    (map (Gui.launch (Full.env w)) (filter (Full.has_cwd w) commands)).
Proof.
  intros H. apply Permutation_map, filter_permutation, pick_permutation. exact H.
Qed.

Lemma all_cwd_pick (w : Full.World) (order : list nat) (commands : list string) :
  Forall (fun c => Full.getcwd_error w c = None) commands ->
  Forall (fun c => Full.has_cwd w c = true) (Futures.pick order commands).
Proof.
  intros H. apply Forall_forall. intros c Hc. apply pick_In in Hc.
  apply has_cwd_iff. revert c Hc. apply Forall_forall. exact H.
Qed.

Lemma full_ident_map (w : Full.World) (l : list string)
    (results : list Gui.Outcome) :
  Forall2 (fun c o =>
             Full.gui_run_docker_container w c
             = ([Gui.launch (Full.env w) c], Ok o)
             /\ Gui.run_docker_container (Full.env w) c
                = ([Gui.launch (Full.env w) c], Ok o)
             /\ ident o = c) l results ->
  map ident results = l.
Proof.
  induction 1 as [|c o l l' [_ [_ Hid]] _ IH]; [reflexivity|].
  cbn [map]. rewrite IH, Hid. reflexivity.
Qed.


(** When [os.getcwd()] returns for every task and the tasks are started
    in the order of submission, the runs are those of the definitions
    of [Gui] and [Cli]. *)
Lemma full_gui_dispatch_in_order (env : Env) (order : list nat)
    (commands : list string) (mw : Z) :
  Full.gui_run_containers_parallel (Full.world_of env)
    (seq 0 (List.length commands)) order commands mw
  = Gui.run_containers_parallel env order commands mw.
Proof.
  unfold Full.gui_run_containers_parallel, Gui.run_containers_parallel.
  rewrite submit_all_spec. unfold Full.submit_all.
  pose proof (pick_seq_from [] commands) as Hpick. cbn [List.length app] in Hpick.
  rewrite Hpick.
  rewrite (flat_map_ext _ (fun x => trace (Gui.run_docker_container env x)))
    by (intros c; rewrite (full_gui_executor_with_cwd (Full.world_of env) c eq_refl);
        reflexivity).
  rewrite (map_ext _ (fun x => outcome (Gui.run_docker_container env x)))
    by (intros c; rewrite (full_gui_executor_with_cwd (Full.world_of env) c eq_refl);
        reflexivity).
  reflexivity.
Qed.

Lemma full_cli_dispatch_in_order (globals : list (string * Cli.Value))
    (env : Env) (order : list nat) (mw : Z) (commands : list string) :
  Full.cli_run_containers_parallel globals (Full.world_of env)
    (seq 0 (List.length commands)) order mw commands
  = Cli.run_containers_parallel globals env order mw commands.
Proof.
  assert (Htask : forall c,
             Full.cli_run_docker_container globals (Full.world_of env) c
             = Cli.run_docker_container globals env c).
  { intros c. unfold Full.cli_run_docker_container, Full.os_getcwd.
    exact (bind_ret_l _ (fun _ => Cli.run_docker_container globals env c)). }
  unfold Full.cli_run_containers_parallel, Cli.run_containers_parallel.
  rewrite submit_all_spec. unfold Full.submit_all.
  pose proof (pick_seq_from [] commands) as Hpick. cbn [List.length app] in Hpick.
  rewrite Hpick.
  rewrite (flat_map_ext _ (fun x => trace (Cli.run_docker_container globals env x)))
    by (intros c; rewrite Htask; reflexivity).
  rewrite (map_ext _ (fun x => outcome (Cli.run_docker_container globals env x)))
    by (intros c; rewrite Htask; reflexivity).
  reflexivity.
Qed.

(** X8: when [os.getcwd()] returns for every task, the dispatcher of the
    GUI, given a worker count of at least 1, returns a batch with one
    outcome per task, in whatever order the workers start the tasks and
    in whatever order the tasks complete: the identifiers are a
    permutation of the commands, every outcome is what the executor
    returns for its command alone, and the launches are those of the
    commands, each once, in some order. *)
Theorem gui_dispatch_one_outcome_per_task :
  forall (w : Full.World) (started order : list nat) (commands : list string)
         (mw : Z),
    1 <= mw ->
    Permutation started (seq 0 (List.length commands)) ->
    Permutation order (seq 0 (List.length commands)) ->
    Forall (fun c => Full.getcwd_error w c = None) commands ->
    exists results : list Gui.Outcome,
      outcome (Full.gui_run_containers_parallel w started order commands mw)
      = Ok results
      /\ List.length results = List.length commands
      /\ Permutation (map ident results) commands
      /\ (NoDup commands -> NoDup (map ident results))
      /\ Forall (fun o => outcome (Full.gui_run_docker_container w (ident o)) = Ok o)
                results
      /\ Permutation
           (trace (Full.gui_run_containers_parallel w started order commands mw))
           (map (Gui.launch (Full.env w)) commands).
Proof.
  intros w started order commands mw Hmw Hstarted Horder Hcwd.
  destruct (full_gui_dispatch w started order commands mw Hmw)
    as [r [Hrun [[results [-> Hres]]|[c [msg [Hin [Hmsg _]]]]]]].
  2:{ apply pick_In in Hin. rewrite Forall_forall in Hcwd.
      rewrite (Hcwd c Hin) in Hmsg. discriminate. }
  pose proof (full_ident_map _ _ _ Hres) as Hids.
  pose proof (pick_permutation order commands Horder) as Hpick.
  exists results. rewrite Hrun. cbn [outcome trace fst snd].
  split; [reflexivity|].
  split.
  { rewrite <- (length_map ident), Hids. apply Permutation_length. exact Hpick. }
  split; [rewrite Hids; exact Hpick|].
  split.
  { intros Hnd. rewrite Hids.
    apply (Permutation_NoDup (Permutation_sym Hpick)). exact Hnd. }
  split.
  { clear -Hres. induction Hres as [|c o l l' [Hco [_ Hid]] _ IH]; constructor.
    - rewrite Hid, Hco. reflexivity.
    - exact IH. }
  rewrite (filter_all _ _ (all_cwd_pick w started commands Hcwd)).
  apply Permutation_map, pick_permutation. exact Hstarted.
Qed.

Lemma gui_dispatch_one_outcome_per_task_witness :
  exists results : list Gui.Outcome,
    outcome (Full.gui_run_containers_parallel
               (Full.world_of (env_always (Exited 3 "" "no")))
               [1; 2; 0]%nat [2; 0; 1]%nat ["a"; "b"; "c"] 2) = Ok results
    /\ List.length results = 3%nat
    /\ Permutation (map ident results) ["a"; "b"; "c"]
    /\ (NoDup ["a"; "b"; "c"] -> NoDup (map ident results))
    /\ Forall (fun o => outcome (Full.gui_run_docker_container
                                   (Full.world_of (env_always (Exited 3 "" "no")))
                                   (ident o)) = Ok o)
              results
    /\ Permutation
         (trace (Full.gui_run_containers_parallel
                   (Full.world_of (env_always (Exited 3 "" "no")))
                   [1; 2; 0]%nat [2; 0; 1]%nat ["a"; "b"; "c"] 2))
         (map (Gui.launch (env_always (Exited 3 "" "no"))) ["a"; "b"; "c"]).
Proof.
  apply (gui_dispatch_one_outcome_per_task
           (Full.world_of (env_always (Exited 3 "" "no")))
           [1; 2; 0]%nat [2; 0; 1]%nat ["a"; "b"; "c"] 2).
  - lia.
  - cbn. apply Permutation_sym.
    apply (perm_trans (l' := [1; 0; 2]%nat)).
    + apply perm_swap.
    + apply perm_skip, perm_swap.
  - cbn. apply Permutation_sym.
    apply (perm_trans (l' := [0; 2; 1]%nat)).
    + apply perm_skip, perm_swap.
    + apply perm_swap.
  - repeat constructor.
Defined.

(** X10: with no task both dispatchers return the empty batch and launch
    nothing; the dispatcher of [docker_runner.py] does not raise then. *)
Theorem dispatch_of_no_task :
  forall (env : Env) (order : list nat) (w : Z)
         (globals : list (string * Cli.Value)),
    1 <= w ->
    Gui.run_containers_parallel env order [] w = ([], Ok [])
    /\ Cli.run_containers_parallel globals env order w [] = ([], Ok []).
Proof.
  intros env order w globals Hw. split.
  - unfold Gui.run_containers_parallel. rewrite pool_accepts by exact Hw.
    cbn [Futures.submit_all bind ret app].
    unfold Futures.as_completed. rewrite pick_nil. reflexivity.
  - unfold Cli.run_containers_parallel. rewrite pool_accepts by exact Hw.
    cbn [Futures.submit_all bind ret app].
    unfold Futures.as_completed. rewrite pick_nil. reflexivity.
Qed.

Lemma dispatch_of_no_task_witness :
  Gui.run_containers_parallel (env_always (Exited 0 "x" "")) [0; 1]%nat [] 4
  = ([], Ok [])
  /\ Cli.run_containers_parallel Cli.module_globals (env_always (Exited 0 "x" ""))
       [0; 1]%nat 4 [] = ([], Ok []).
Proof.
  apply (dispatch_of_no_task (env_always (Exited 0 "x" "")) [0; 1]%nat 4
           Cli.module_globals).
  lia.
Defined.

(** The dispatcher of [docker_runner.py], the pool accepted and [index]
    unbound: the launches of the tasks that found the working
    directory, in the order in which the tasks were started; then the
    exception of the first completed task. *)
Lemma full_cli_dispatch (globals : list (string * Cli.Value)) (w : Full.World)
    (started order : list nat) (mw : Z) (commands : list string) :
  Cli.lookup "index" globals = None ->
  1 <= mw ->
  commands <> [] ->
  Permutation order (seq 0 (List.length commands)) ->
  exists (c : string) (e : Exn),
    hd_error (Futures.pick order commands) = Some c
    /\ In c commands
    /\ outcome (Full.cli_run_docker_container globals w c) = Raise e
    /\ Full.cli_run_containers_parallel globals w started order mw commands
       = (map (Cli.launch (Full.env w))
              (filter (Full.has_cwd w) (Futures.pick started commands)),
          Raise e).
Proof.
  intros Hidx Hmw Hne Horder.
  unfold Full.cli_run_containers_parallel. rewrite pool_accepts by exact Hmw.
  unfold Full.submit_all, Cli.collect, Futures.as_completed, Futures.Future.
  cbn [bind ret app]. rewrite (full_cli_traces globals w _ Hidx), pick_map.
  pose proof (pick_nonempty order commands Hne Horder) as Hpick.
  assert (Hin : forall c, In c (Futures.pick order commands) -> In c commands)
    by (intros c; apply pick_In).
  destruct (Futures.pick order commands) as [|c cs]; [contradiction|].
  assert (He : exists e,
             outcome (Full.cli_run_docker_container globals w c) = Raise e).
  { destruct (full_cli_task globals w c Hidx) as [[_ ->]|[_ [msg [_ ->]]]];
      eexists; reflexivity. }
  destruct He as [e He]. exists c, e.
  split; [reflexivity|].
  split; [apply Hin; left; reflexivity|]. split; [exact He|].
  cbn [map]. rewrite He, collect_loop_raise. cbn. rewrite app_nil_r. reflexivity.
Qed.

(** X11: for every task list that is not empty, every worker count of at
    least 1, every start order and every completion order, the
    dispatcher of [docker_runner.py] returns no batch. It launches,
    once and in some order, every task for which [os.getcwd()] returns,
    and raises the exception of the task that completed first: the
    [NameError] of the executor when [os.getcwd()] returned for that
    task, the [OSError] of [os.getcwd()] otherwise. When [os.getcwd()]
    returns for every task, every task is launched and the exception is
    the [NameError]. *)
Theorem cli_dispatch_launches_then_raises :
  forall (w : Full.World) (started order : list nat) (mw : Z)
         (commands : list string),
    1 <= mw ->
    commands <> [] ->
    Permutation started (seq 0 (List.length commands)) ->
    Permutation order (seq 0 (List.length commands)) ->
    exists (first : string) (e : Exn) (t : list Effect),
      hd_error (Futures.pick order commands) = Some first
      /\ Full.cli_run_containers_parallel Cli.module_globals w started order mw
           commands
         = (t, Raise e)
      /\ Permutation t (map (Cli.launch (Full.env w))
                            (filter (Full.has_cwd w) commands))
      /\ e = match Full.getcwd_error w first with
             | Some msg => OSError msg
             | None => NameError "index"
             end
      /\ (Forall (fun c => Full.getcwd_error w c = None) commands ->
          e = NameError "index"
          /\ Permutation t (map (Cli.launch (Full.env w)) commands)).
Proof.
  intros w started order mw commands Hmw Hne Hstarted Horder.
  destruct (full_cli_dispatch Cli.module_globals w started order mw commands
              module_globals_no_index Hmw Hne Horder)
    as [c [e [Hhd [Hin [He Hrun]]]]].
  exists c, e, (map (Cli.launch (Full.env w))
                    (filter (Full.has_cwd w) (Futures.pick started commands))).
  assert (Hperm : Permutation
                    (map (Cli.launch (Full.env w))
                         (filter (Full.has_cwd w) (Futures.pick started commands)))
                    (map (Cli.launch (Full.env w))
                         (filter (Full.has_cwd w) commands))).
  { apply Permutation_map, filter_permutation, pick_permutation. exact Hstarted. }
  split; [exact Hhd|]. split; [exact Hrun|]. split; [exact Hperm|].
  destruct (full_cli_task Cli.module_globals w c module_globals_no_index)
    as [[Hc H1]|[Hc [msg [Hmsg H1]]]]; rewrite H1 in He; injection He as <-.
  - apply has_cwd_iff in Hc. rewrite Hc.
    split; [reflexivity|]. intros Hcwd. split; [reflexivity|].
    assert (Hall : filter (Full.has_cwd w) commands = commands).
    { apply filter_all. eapply Forall_impl; [|exact Hcwd].
      intros c'. apply has_cwd_iff. }
    rewrite Hall in Hperm. exact Hperm.
  - rewrite Hmsg. split; [reflexivity|]. intros Hcwd.
    rewrite Forall_forall in Hcwd. rewrite (Hcwd c Hin) in Hmsg. discriminate.
Qed.

Lemma cli_dispatch_launches_then_raises_witness :
  exists (first : string) (e : Exn) (t : list Effect),
    hd_error (Futures.pick [1; 0]%nat ["x"; "y"]) = Some first
    /\ Full.cli_run_containers_parallel Cli.module_globals
         (cwd_gone_for (env_always (Exited 0 "ok" "")) "x") [0; 1]%nat [1; 0]%nat 2
         ["x"; "y"]
       = (t, Raise e)
    /\ Permutation t
         (map (Cli.launch (env_always (Exited 0 "ok" "")))
              (filter (Full.has_cwd
                         (cwd_gone_for (env_always (Exited 0 "ok" "")) "x"))
                      ["x"; "y"]))
    /\ e = match Full.getcwd_error
                   (cwd_gone_for (env_always (Exited 0 "ok" "")) "x") first with
           | Some msg => OSError msg
           | None => NameError "index"
           end
    /\ (Forall (fun c => Full.getcwd_error
                           (cwd_gone_for (env_always (Exited 0 "ok" "")) "x") c
                         = None)
               ["x"; "y"] ->
        e = NameError "index"
        /\ Permutation t (map (Cli.launch (env_always (Exited 0 "ok" "")))
                              ["x"; "y"])).
Proof.
  apply (cli_dispatch_launches_then_raises
           (cwd_gone_for (env_always (Exited 0 "ok" "")) "x")
           [0; 1]%nat [1; 0]%nat 2 ["x"; "y"]).
  - lia.
  - discriminate.
  - apply Permutation_refl.
  - apply perm_swap.
Defined.

(** X12: the executor of [docker_runner.py] returns a tuple exactly when
    the global namespace it runs in binds the name [index] and
    [os.getcwd()] returns. The module as written does not bind [index],
    so its executor never returns. *)
Theorem cli_executor_returns_iff_index_bound :
  forall (globals : list (string * Cli.Value)) (w : Full.World)
         (command : string),
    ((exists o, outcome (Full.cli_run_docker_container globals w command) = Ok o)
     <-> (exists v, Cli.lookup "index" globals = Some v)
         /\ Full.getcwd_error w command = None)
    /\ Cli.lookup "index" Cli.module_globals = None
    /\ (forall o,
           outcome (Full.cli_run_docker_container Cli.module_globals w command)
           <> Ok o).
Proof.
  intros globals w command.
  assert (Hiff : forall g,
    (exists o, outcome (Full.cli_run_docker_container g w command) = Ok o)
    <-> (exists v, Cli.lookup "index" g = Some v)
        /\ Full.getcwd_error w command = None).
  { intros g. split.
    - intros [o Ho]. destruct (Cli.lookup "index" g) as [v|] eqn:Hidx.
      + split; [exists v; reflexivity|].
        unfold Full.cli_run_docker_container, Full.os_getcwd in Ho.
        destruct (Full.getcwd_error w command); [discriminate | reflexivity].
      + destruct (full_cli_task g w command Hidx)
          as [[_ H1]|[_ [msg [_ H1]]]]; rewrite H1 in Ho; discriminate.
    - intros [[v Hv] Hcwd].
      destruct (cli_executor_with_index (Full.env w) command g v Hv)
        as [o [Ho _]].
      exists o. unfold Full.cli_run_docker_container, Full.os_getcwd.
      rewrite Hcwd.
      rewrite (bind_ret_l _ (fun _ => Cli.run_docker_container g (Full.env w)
                                        command)).
      rewrite Ho. reflexivity. }
  split; [apply Hiff|]. split; [reflexivity|].
  intros o Ho.
  destruct (proj1 (Hiff Cli.module_globals) (ex_intro _ o Ho)) as [[v Hv] _].
  discriminate.
Qed.

Lemma cli_executor_returns_iff_index_bound_witness :
  exists o, outcome (Full.cli_run_docker_container [("index", Cli.VStr "k")]
                       (Full.world_of (env_always (NotStarted "no docker"))) "ls")
            = Ok o.
Proof.
  apply (proj2 (proj1 (cli_executor_returns_iff_index_bound
                         [("index", Cli.VStr "k")]
                         (Full.world_of (env_always (NotStarted "no docker")))
                         "ls"))).
  split; [exists (Cli.VStr "k"); reflexivity | reflexivity].
Defined.

(** ** The worker thread of the GUI *)

Lemma inserts_launch_nothing (texts : list string) :
  filter is_launch (map TextInsert texts) = [].
Proof. induction texts as [|x texts IH]; [reflexivity | exact IH]. Qed.

(** X13: [run_containers_thread] never raises and its last effect is to
    enable the run button again, whatever the working directory, the
    processes and the workers do. With a worker count below 1 nothing
    is launched; with one of at least 1 the tasks for which
    [os.getcwd()] returns are launched, each once, in some order: all
    the tasks when it returns for all. *)
Theorem gui_thread_never_raises :
  forall (w : Full.World) (started order : list nat) (commands : list string)
         (mw : Z),
  exists t,
    Full.gui_run_containers_thread w started order commands mw
    = (t ++ [ButtonConfig "normal"], Ok tt)
    /\ (mw <= 0 -> launches t = 0%nat)
    /\ (1 <= mw ->
        Permutation started (seq 0 (List.length commands)) ->
        Permutation (filter is_launch t)
                    (map (Gui.launch (Full.env w))
                         (filter (Full.has_cwd w) commands))
        /\ (Forall (fun c => Full.getcwd_error w c = None) commands ->
            launches t = List.length commands)).
Proof.
  intros w started order commands mw.
  destruct (Z.le_gt_cases mw 0) as [Hmw|Hmw].
  - rewrite (full_gui_thread_invalid w started order commands mw Hmw).
    eexists [_; _]. split; [reflexivity|]. split; [reflexivity | lia].
  - assert (Hlaunched :
      forall rest,
        filter is_launch rest = [] ->
        Permutation started (seq 0 (List.length commands)) ->
        let t := map (Gui.launch (Full.env w))
                     (filter (Full.has_cwd w) (Futures.pick started commands))
                 ++ rest in
        Permutation (filter is_launch t)
                    (map (Gui.launch (Full.env w))
                         (filter (Full.has_cwd w) commands))
        /\ (Forall (fun c => Full.getcwd_error w c = None) commands ->
            launches t = List.length commands)).
    { intros rest Hrest Hstarted t.
      assert (Hperm : Permutation (filter is_launch t)
                        (map (Gui.launch (Full.env w))
                             (filter (Full.has_cwd w) commands))).
      { subst t. rewrite filter_app, Hrest, app_nil_r, launches_only.
        apply launched_permutation. exact Hstarted. }
      split; [exact Hperm|]. intros Hcwd.
      unfold launches. rewrite (Permutation_length Hperm), length_map.
      rewrite filter_all; [reflexivity|].
      eapply Forall_impl; [|exact Hcwd]. intros c. apply has_cwd_iff. }
    destruct (full_gui_thread w started order commands mw ltac:(lia))
      as [[results [_ Hthread]]|[c [msg [_ [_ Hthread]]]]]; rewrite Hthread.
    + exists (map (Gui.launch (Full.env w))
                  (filter (Full.has_cwd w) (Futures.pick started commands))
              ++ map TextInsert (Report.gui_report results) ++ [TextSee]).
      split; [rewrite <- !app_assoc; reflexivity|].
      split; [lia|]. intros _. apply Hlaunched.
      rewrite filter_app, inserts_launch_nothing. reflexivity.
    + exists (map (Gui.launch (Full.env w))
                  (filter (Full.has_cwd w) (Futures.pick started commands))
              ++ [TextInsert (Gui.newline ++ "ERROR: " ++ msg ++ Gui.newline)%string;
                  TextSee]).
      split; [rewrite <- !app_assoc; reflexivity|].
      split; [lia|]. intros _. apply Hlaunched. reflexivity.
Qed.

Lemma gui_thread_never_raises_witness :
  exists t,
    Full.gui_run_containers_thread
      (cwd_gone_for (env_always (Exited 1 "" "bad")) "a")
      [1; 0]%nat [1; 0]%nat ["a"; "b"] 2
    = (t ++ [ButtonConfig "normal"], Ok tt)
    /\ Permutation (filter is_launch t)
                   (map (Gui.launch (env_always (Exited 1 "" "bad"))) ["b"]).
Proof.
  destruct (gui_thread_never_raises
              (cwd_gone_for (env_always (Exited 1 "" "bad")) "a")
              [1; 0]%nat [1; 0]%nat ["a"; "b"] 2) as [t [Ht [_ H1]]].
  exists t. split; [exact Ht|].
  apply H1; [lia | apply perm_swap].
Defined.

(** X28: when [os.getcwd()] raises for one of the tasks, the run of the
    GUI gives no report. The dispatcher raises the [OSError] of such a
    task, after the launches of the tasks that found the directory;
    [run_containers_thread] then inserts the line [ERROR: ...] with the
    message of that exception and nothing else, and enables the run
    button. *)
Theorem gui_batch_aborts_without_cwd :
  forall (w : Full.World) (started order : list nat) (commands : list string)
         (mw : Z) (gone : string),
    1 <= mw ->
    Permutation started (seq 0 (List.length commands)) ->
    Permutation order (seq 0 (List.length commands)) ->
    In gone commands ->
    Full.has_cwd w gone = false ->
    exists (c msg : string) (t : list Effect),
      In c commands
      /\ Full.getcwd_error w c = Some msg
      /\ Full.gui_run_containers_parallel w started order commands mw
         = (t, Raise (OSError msg))
      /\ Permutation t (map (Gui.launch (Full.env w))
                            (filter (Full.has_cwd w) commands))
      /\ Full.gui_run_containers_thread w started order commands mw
         = (t ++ [TextInsert (Gui.newline ++ "ERROR: " ++ msg ++ Gui.newline)%string;
                  TextSee; ButtonConfig "normal"],
            Ok tt).
Proof.
  intros w started order commands mw gone Hmw Hstarted Horder Hin Hgone.
  destruct (full_gui_dispatch w started order commands mw Hmw)
    as [r [Hrun [[results [-> Hres]]|[c [msg [Hc [Hmsg ->]]]]]]].
  - exfalso.
    assert (Hpick : In gone (Futures.pick order commands)).
    { apply (Permutation_in gone
               (Permutation_sym (pick_permutation order commands Horder))).
      exact Hin. }
    destruct (Forall2_In_l _ _ _ gone Hres Hpick) as [o [_ [Ho _]]].
    destruct (full_gui_task w gone) as [[Hc _]|[_ [msg [_ H1]]]].
    + rewrite Hc in Hgone. discriminate.
    + rewrite H1 in Ho. discriminate.
  - exists c, msg, (map (Gui.launch (Full.env w))
                        (filter (Full.has_cwd w) (Futures.pick started commands))).
    split; [apply (pick_In order); exact Hc|].
    split; [exact Hmsg|]. split; [exact Hrun|].
    split; [apply launched_permutation; exact Hstarted|].
    unfold Full.gui_run_containers_thread. rewrite Hrun.
    cbn [bind try_except is_Exception Gui.display_error emit try_finally].
    rewrite <- !app_assoc. reflexivity.
Qed.

Lemma gui_batch_aborts_without_cwd_witness :
  exists (c msg : string) (t : list Effect),
    In c ["a"; "b"]
    /\ Full.getcwd_error (cwd_gone_for (env_always (Exited 0 "x" "")) "b") c
       = Some msg
    /\ Full.gui_run_containers_parallel
         (cwd_gone_for (env_always (Exited 0 "x" "")) "b")
         [1; 0]%nat [0; 1]%nat ["a"; "b"] 2
       = (t, Raise (OSError msg))
    /\ Permutation t (map (Gui.launch (env_always (Exited 0 "x" ""))) ["a"])
    /\ Full.gui_run_containers_thread
         (cwd_gone_for (env_always (Exited 0 "x" "")) "b")
         [1; 0]%nat [0; 1]%nat ["a"; "b"] 2
       = (t ++ [TextInsert (Gui.newline ++ "ERROR: " ++ msg ++ Gui.newline)%string;
                TextSee; ButtonConfig "normal"],
          Ok tt).
Proof.
  apply (gui_batch_aborts_without_cwd
           (cwd_gone_for (env_always (Exited 0 "x" "")) "b")
           [1; 0]%nat [0; 1]%nat ["a"; "b"] 2 "b").
  - lia.
  - apply perm_swap.
  - apply Permutation_refl.
  - right. left. reflexivity.
  - reflexivity.
Defined.

(** ** What the summary counts *)






(** ** More on the entry points *)

(** X15: when the first argument of [docker_runner.py] is no integer or
    is below 1, [main] prints two lines, the problem and the usage
    line naming the program, launches nothing and exits with status 1;
    further arguments are ignored. *)
Theorem cli_main_rejects_bad_count :
  forall (env : Env) (order : list nat) (prog arg : string) (rest : list string),
    (forall n, PyString.int arg = Ok n -> n < 1) ->
    let run := Cli.main Cli.module_globals env order (prog :: arg :: rest) in
    exit_status run = 1
    /\ launches (trace run) = 0%nat
    /\ exists msg,
         printed (trace run)
         = [ "Invalid argument: " ++ msg;
             "Usage: " ++ prog ++ " [number_of_containers]" ]%string.
Proof.
  intros env order prog arg rest Hbad run. subst run.
  destruct (cli_main_rejects env order Cli.module_globals prog arg rest Hbad)
    as [msg ->].
  repeat split. exists msg. reflexivity.
Qed.

Lemma cli_main_rejects_bad_count_witness :
  let run := Cli.main Cli.module_globals (env_always (Exited 0 "x" "")) [0; 1; 2]%nat
               ["run.py"; "-3"; "more"] in
  exit_status run = 1
  /\ launches (trace run) = 0%nat
  /\ exists msg,
       printed (trace run)
       = [ "Invalid argument: " ++ msg;
           "Usage: " ++ "run.py" ++ " [number_of_containers]" ]%string.
Proof.
  apply (cli_main_rejects_bad_count (env_always (Exited 0 "x" "")) [0; 1; 2]%nat
           "run.py" "-3" ["more"]).
  intros n [= <-]. lia.
Defined.

(** X16: when the worker-count field is no integer or is below 1,
    [run_containers] shows one error dialog and does nothing else: no
    launch, no change of the run button or of the results. *)
Theorem gui_run_rejects_bad_count :
  forall (env : Env) (order : list nat) (self : Gui.DockerRunnerGUI),
    (forall n, PyString.int (Gui.max_workers_var self) = Ok n -> n < 1) ->
    exists msg,
      Gui.run_containers env order self
      = ([ShowError "Invalid Input"
            ("Max workers must be a positive integer: " ++ msg)%string],
         Ok tt).
Proof. intros env order self. apply gui_run_rejects. Qed.

Lemma gui_run_rejects_bad_count_witness :
  exists msg,
    Gui.run_containers (env_always (Exited 0 "x" "")) [0]%nat
      {| Gui.command_entries := ["ls"]; Gui.max_workers_var := "two" |}
    = ([ShowError "Invalid Input"
          ("Max workers must be a positive integer: " ++ msg)%string],
       Ok tt).
Proof.
  apply (gui_run_rejects_bad_count (env_always (Exited 0 "x" "")) [0]%nat
           {| Gui.command_entries := ["ls"]; Gui.max_workers_var := "two" |}).
  intros n [=].
Defined.

Lemma gui_validate_accepts (self : Gui.DockerRunnerGUI) (n : Z) :
  PyString.int (Gui.max_workers_var self) = Ok n -> 1 <= n ->
  Gui.validate_max_workers self = ([], Ok (Some n)).
Proof.
  intros Hint Hn. unfold Gui.validate_max_workers. rewrite Hint.
  unfold lift, bind, try_except. cbn [fst snd].
  destruct (Z.ltb_spec n 1); [lia | reflexivity].
Qed.

(** X17: with a valid worker count and only blank command entries,
    [run_containers] shows the warning [No Commands] and does nothing
    else. *)
Theorem gui_run_without_commands :
  forall (env : Env) (order : list nat) (self : Gui.DockerRunnerGUI) (n : Z),
    PyString.int (Gui.max_workers_var self) = Ok n ->
    1 <= n ->
    Forall (fun content => PyString.strip content = EmptyString)
           (Gui.command_entries self) ->
    Gui.run_containers env order self
    = ([ShowWarning "No Commands" "Please enter at least one command."], Ok tt).
Proof.
  intros env order self n Hint Hn Hblank.
  unfold Gui.run_containers. rewrite (gui_validate_accepts self n Hint Hn).
  cbn [bind ret app].
  replace (Gui.read_commands self) with (@nil string); [reflexivity|].
  symmetry. destruct (gui_read_commands_filter self) as [-> _].
  induction Hblank as [|content l Hc _ IH]; [reflexivity|].
  cbn [map filter]. rewrite Hc. exact IH.
Qed.

Lemma gui_run_without_commands_witness :
  Gui.run_containers (env_always (Exited 0 "x" "")) [0]%nat
    {| Gui.command_entries := ["  "; ""]; Gui.max_workers_var := "3" |}
  = ([ShowWarning "No Commands" "Please enter at least one command."], Ok tt).
Proof.
  apply (gui_run_without_commands (env_always (Exited 0 "x" "")) [0]%nat
           {| Gui.command_entries := ["  "; ""]; Gui.max_workers_var := "3" |} 3).
  - reflexivity.
  - lia.
  - repeat constructor.
Defined.

(** X18: with a valid worker count and at least one command,
    [run_containers] disables the run button and clears the results
    first, launches once, in the order in which the workers start the
    tasks, every command read from the form for which [os.getcwd()]
    returns, and enables the run button last; it does not raise. *)
Theorem gui_run_launches_each_command_once :
  forall (w : Full.World) (started order : list nat)
         (self : Gui.DockerRunnerGUI) (n : Z),
    PyString.int (Gui.max_workers_var self) = Ok n ->
    1 <= n ->
    Gui.read_commands self <> [] ->
    Permutation started (seq 0 (List.length (Gui.read_commands self))) ->
    exists t,
      Full.gui_run_containers w started order self
      = ([ButtonConfig "disabled"; TextDelete] ++ t ++ [ButtonConfig "normal"],
         Ok tt)
      /\ Permutation (filter is_launch t)
                     (map (Gui.launch (Full.env w))
                          (filter (Full.has_cwd w) (Gui.read_commands self))).
Proof.
  intros w started order self n Hint Hn Hne Hstarted.
  unfold Full.gui_run_containers. rewrite (gui_validate_accepts self n Hint Hn).
  cbn [bind ret app].
  destruct (Gui.read_commands self) as [|c cs] eqn:Hcmds; [contradiction|].
  assert (Hthread : exists rest,
             Full.gui_run_containers_thread w started order (c :: cs) n
             = (map (Gui.launch (Full.env w))
                    (filter (Full.has_cwd w) (Futures.pick started (c :: cs)))
                ++ rest ++ [ButtonConfig "normal"], Ok tt)
             /\ filter is_launch rest = []).
  { destruct (full_gui_thread w started order (c :: cs) n Hn)
      as [[results [_ Hthread]]|[c' [msg [_ [_ Hthread]]]]]; rewrite Hthread.
    - exists (map TextInsert (Report.gui_report results) ++ [TextSee]).
      split; [rewrite <- !app_assoc; reflexivity|].
      rewrite filter_app, inserts_launch_nothing. reflexivity.
    - exists [TextInsert (Gui.newline ++ "ERROR: " ++ msg ++ Gui.newline)%string;
              TextSee].
      split; reflexivity. }
  destruct Hthread as [rest [-> Hrest]].
  eexists (_ :: _ :: map (Gui.launch (Full.env w))
                         (filter (Full.has_cwd w)
                                 (Futures.pick started (c :: cs)))
             ++ rest).
  split.
  - cbn [bind emit app]. rewrite <- !app_assoc. reflexivity.
  - cbn [filter is_launch]. rewrite filter_app, Hrest, app_nil_r, launches_only.
    apply launched_permutation. exact Hstarted.
Qed.

Lemma gui_run_launches_each_command_once_witness :
  exists t,
    Full.gui_run_containers (Full.world_of (env_always (Exited 0 "x" "")))
      [1; 0]%nat [1; 0]%nat
      {| Gui.command_entries := ["a"; ""; "b"]; Gui.max_workers_var := "2" |}
    = ([ButtonConfig "disabled"; TextDelete] ++ t ++ [ButtonConfig "normal"],
       Ok tt)
    /\ Permutation (filter is_launch t)
         (map (Gui.launch (env_always (Exited 0 "x" ""))) ["a"; "b"]).
Proof.
  apply (gui_run_launches_each_command_once
           (Full.world_of (env_always (Exited 0 "x" "")))
           [1; 0]%nat [1; 0]%nat
           {| Gui.command_entries := ["a"; ""; "b"]; Gui.max_workers_var := "2" |} 2).
  - reflexivity.
  - lia.
  - discriminate.
  - apply perm_swap.
Defined.

Lemma cli_main_default (env : Env) (order : list nat) (argv : list string) :
  (List.length argv <= 1)%nat ->
  Permutation order [0; 1; 2]%nat ->
  Cli.main Cli.module_globals env order argv
  = (Print "Running 5 Docker containers in parallel..."
       :: map (Cli.launch env) ["test 1"; "test 2"; "test 3"]%string,
     Raise (NameError "index")).
Proof.
  intros Hlen Hperm. unfold Cli.main.
  replace (1 <? Z.of_nat (List.length argv)) with false
    by (symmetry; apply Z.ltb_ge; lia).
  cbn [bind ret emit app].
  rewrite (cli_dispatch_raises env Cli.module_globals eq_refl order 5);
    [reflexivity | lia | discriminate | exact Hperm].
Qed.

(** X19: [docker_runner.py] exits with status 1 whatever its arguments
    and whatever the processes do, and never prints the report. *)
Theorem cli_main_always_exits_1 :
  forall (env : Env) (order : list nat) (argv : list string),
    Permutation order [0; 1; 2]%nat ->
    let run := Cli.main Cli.module_globals env order argv in
    exit_status run = 1
    /\ ~ In "DOCKER CONTAINER RESULTS" (printed (trace run)).
Proof.
  intros env order argv Hperm run. subst run.
  destruct argv as [|prog [|arg rest]].
  - rewrite (cli_main_default env order [] ltac:(cbn; lia) Hperm).
    split; [reflexivity|]. cbn. intros [H|[]]; discriminate.
  - rewrite (cli_main_default env order [prog] ltac:(cbn; lia) Hperm).
    split; [reflexivity|]. cbn. intros [H|[]]; discriminate.
  - destruct (PyString.int arg) as [n|e] eqn:Hint.
    + destruct (Z.lt_ge_cases n 1) as [Hn|Hn].
      * destruct (cli_main_rejects env order Cli.module_globals prog arg rest)
          as [msg ->].
        { intros n' Hn'. rewrite Hint in Hn'. injection Hn' as <-. exact Hn. }
        split; [reflexivity|]. cbn. intros [H|[H|[]]]; discriminate.
      * rewrite (cli_main_accepts env order prog arg rest n Hint Hn Hperm).
        split; [reflexivity|]. cbn. intros [H|[]].
        apply (f_equal (String.get 0)) in H. cbn in H. discriminate.
    + destruct (cli_main_rejects env order Cli.module_globals prog arg rest)
        as [msg ->].
      { intros n' Hn'. rewrite Hint in Hn'. discriminate. }
      split; [reflexivity|]. cbn. intros [H|[H|[]]]; discriminate.
Qed.

Lemma cli_main_always_exits_1_witness :
  let run := Cli.main Cli.module_globals (env_always (Exited 0 "fine" ""))
               [2; 1; 0]%nat ["docker_runner.py"; "3"] in
  exit_status run = 1
  /\ ~ In "DOCKER CONTAINER RESULTS" (printed (trace run)).
Proof.
  apply (cli_main_always_exits_1 (env_always (Exited 0 "fine" ""))
           [2; 1; 0]%nat ["docker_runner.py"; "3"]).
  apply (perm_trans (l' := [1; 2; 0]%nat)).
  - apply perm_swap.
  - apply (perm_trans (l' := [1; 0; 2]%nat)).
    + apply perm_skip, perm_swap.
    + apply perm_swap.
Defined.

(** ** More on the sort *)

(** X20: on outcomes whose identifiers are strings, the sort of the
    dispatcher of [docker_runner.py] does not raise and returns the
    same outcomes in ascending order of identifier. *)
Theorem cli_sort_gives_sorted_permutation :
  forall results : list Cli.Outcome,
    Forall Cli.str_keyed results ->
    exists l,
      Cli.sort_by_key results = Ok l
      /\ Permutation l results
      /\ StronglySorted Cli.key_le l.
Proof. exact sort_by_key_sorted. Qed.

Lemma cli_sort_gives_sorted_permutation_witness :
  exists l,
    Cli.sort_by_key [ (Cli.VStr "b", Some "2", None); (Cli.VStr "a", None, Some "x") ]
    = Ok l
    /\ Permutation l [ (Cli.VStr "b", Some "2", None); (Cli.VStr "a", None, Some "x") ]
    /\ StronglySorted Cli.key_le l.
Proof.
  apply (cli_sort_gives_sorted_permutation
           [ (Cli.VStr "b", Some "2", None); (Cli.VStr "a", None, Some "x") ]).
  repeat constructor; eexists; reflexivity.
Defined.



(** ** The command form *)

Lemma enumerate_length {A} (l : list A) (start : Z) :
  List.length (Gui.enumerate l start) = List.length l.
Proof.
  unfold Gui.enumerate. rewrite length_combine, length_map, length_seq.
  apply Nat.min_id.
Qed.

Lemma regrid_ids (rows : list Form.CommandRow) :
  map Form.row_id (Form.regrid rows) = map Form.row_id rows.
Proof.
  unfold Form.regrid. generalize 0 as start.
  induction rows as [|r rows IH]; intros start; [reflexivity|].
  rewrite enumerate_cons. cbn [map]. rewrite IH. reflexivity.
Qed.

Lemma regrid_texts (rows : list Form.CommandRow) :
  map Form.row_text (Form.regrid rows) = map Form.row_text rows.
Proof.
  unfold Form.regrid. generalize 0 as start.
  induction rows as [|r rows IH]; intros start; [reflexivity|].
  rewrite enumerate_cons. cbn [map]. rewrite IH. reflexivity.
Qed.

Lemma regrid_rows_from (rows : list Form.CommandRow) (start : nat) :
  map Form.row_grid
      (map (fun item : Z * Form.CommandRow =>
              let '(i, child) := item in
              {| Form.row_id := Form.row_id child; Form.row_grid := i;
                 Form.row_text := Form.row_text child |})
           (Gui.enumerate rows (Z.of_nat start)))
  = map Z.of_nat (seq start (List.length rows)).
Proof.
  revert start. induction rows as [|r rows IH]; intros start; [reflexivity|].
  rewrite enumerate_cons. cbn [map List.length seq]. f_equal.
  replace (Z.of_nat start + 1) with (Z.of_nat (S start)) by lia. apply IH.
Qed.

Lemma regrid_rows (rows : list Form.CommandRow) :
  map Form.row_grid (Form.regrid rows)
  = map Z.of_nat (seq 0 (List.length rows)).
Proof. apply (regrid_rows_from rows 0). Qed.

(** Rows that already stand at their positions are left as they are. *)
Lemma regrid_fixed_from (rows : list Form.CommandRow) : forall start : nat,
  map Form.row_grid rows = map Z.of_nat (seq start (List.length rows)) ->
  map (fun item : Z * Form.CommandRow =>
         let '(i, child) := item in
         {| Form.row_id := Form.row_id child; Form.row_grid := i;
            Form.row_text := Form.row_text child |})
      (Gui.enumerate rows (Z.of_nat start))
  = rows.
Proof.
  induction rows as [|r rows IH]; intros start Hrows; [reflexivity|].
  rewrite enumerate_cons. cbn [map List.length seq] in *.
  injection Hrows as Hr Hrows. f_equal.
  - destruct r as [id grid text]. cbn in *. rewrite Hr. reflexivity.
  - replace (Z.of_nat start + 1) with (Z.of_nat (S start)) by lia.
    apply IH. exact Hrows.
Qed.

Lemma list_remove_filter (k : nat) (l : list nat) :
  In k l -> NoDup l ->
  Form.list_remove k l = Ok (filter (fun x => negb (Nat.eqb x k)) l).
Proof.
  induction l as [|y l IH]; intros Hin Hnd; [contradiction|].
  inversion Hnd as [|? ? Hnotin Hnd']; subst.
  cbn [Form.list_remove filter].
  destruct (Nat.eqb_spec y k) as [->|Hne]; cbn [negb].
  - f_equal. symmetry. apply forallb_filter_id.
    apply forallb_forall. intros x Hx.
    destruct (Nat.eqb_spec x k) as [->|]; [contradiction | reflexivity].
  - destruct Hin as [Heq|Hin]; [contradiction|].
    rewrite (IH Hin Hnd'). reflexivity.
Qed.

Lemma filter_map_ids (k : nat) (rows : list Form.CommandRow) :
  map Form.row_id
      (filter (fun child => negb (Nat.eqb (Form.row_id child) k)) rows)
  = filter (fun x => negb (Nat.eqb x k)) (map Form.row_id rows).
Proof.
  induction rows as [|r rows IH]; [reflexivity|].
  cbn [map filter]. destruct (Nat.eqb (Form.row_id r) k); cbn [negb map];
    rewrite IH; reflexivity.
Qed.

Lemma filter_remove_length (k : nat) (l : list nat) :
  In k l -> NoDup l ->
  S (List.length (filter (fun x => negb (Nat.eqb x k)) l)) = List.length l.
Proof.
  induction l as [|y l IH]; intros Hin Hnd; [contradiction|].
  inversion Hnd as [|? ? Hnotin Hnd']; subst. cbn [filter].
  destruct (Nat.eqb_spec y k) as [->|Hne]; cbn [negb List.length].
  - f_equal. f_equal. apply forallb_filter_id.
    apply forallb_forall. intros x Hx.
    destruct (Nat.eqb_spec x k) as [->|]; [contradiction | reflexivity].
  - destruct Hin as [Heq|Hin]; [contradiction|].
    rewrite (IH Hin Hnd'). reflexivity.
Qed.

Lemma form_init_invariant : Form.invariant Form.init.
Proof.
  constructor; cbn; try reflexivity.
  - discriminate.
  - repeat constructor. intros [].
  - repeat constructor.
Qed.

Lemma form_add_invariant (self : Form.State) :
  Form.invariant self -> Form.invariant (Form.add_command self).
Proof.
  intros [Hne Hal Hrows Hnd Hfresh].
  constructor; cbn [Form.add_command Form.entries Form.children Form.fresh].
  - intros H. apply app_eq_nil in H. destruct H as [_ H]. discriminate.
  - rewrite map_app, Hal. reflexivity.
  - rewrite map_app, Hrows, length_app. cbn [map List.length Form.row_grid].
    rewrite Nat.add_1_r, seq_S, map_app. reflexivity.
  - apply NoDup_app.
    + exact Hnd.
    + repeat constructor. intros [].
    + intros x Hx [<-|[]]. rewrite Forall_forall in Hfresh.
      specialize (Hfresh _ Hx). lia.
  - apply Forall_app. split.
    + eapply Forall_impl; [|exact Hfresh]. cbn beta. intros x Hx. lia.
    + repeat constructor.
Qed.

Lemma form_delete_many (self : Form.State) (k : nat) :
  Form.invariant self -> In k (Form.entries self) ->
  (1 < List.length (Form.entries self))%nat ->
  Form.delete_command self k
  = ([], Ok {| Form.entries := filter (fun x => negb (Nat.eqb x k))
                                      (Form.entries self);
               Form.children :=
                 Form.regrid (filter (fun child =>
                                        negb (Nat.eqb (Form.row_id child) k))
                                     (Form.children self));
               Form.max_workers := Form.max_workers self;
               Form.fresh := Form.fresh self |}).
Proof.
  intros [Hne Hal Hrows Hnd Hfresh] Hin Hlen. unfold Form.delete_command.
  destruct (Z.ltb_spec 1 (Z.of_nat (List.length (Form.entries self)))); [|lia].
  rewrite (list_remove_filter k _ Hin Hnd). reflexivity.
Qed.

Lemma form_delete_invariant (self self' : Form.State) (k : nat) (t : list Effect) :
  Form.invariant self -> In k (Form.entries self) ->
  Form.delete_command self k = (t, Ok self') ->
  Form.invariant self'.
Proof.
  intros Hinv Hin Hdel.
  destruct (Nat.lt_ge_cases 1 (List.length (Form.entries self))) as [Hlen|Hlen].
  - rewrite (form_delete_many self k Hinv Hin Hlen) in Hdel.
    injection Hdel as _ <-.
    destruct Hinv as [Hne Hal Hrows Hnd Hfresh].
    pose proof (filter_remove_length k _ Hin Hnd) as Hcount.
    constructor; cbn [Form.entries Form.children Form.fresh].
    + intros H. rewrite H in Hcount. cbn in Hcount. lia.
    + rewrite regrid_ids, filter_map_ids, Hal. reflexivity.
    + rewrite regrid_rows. do 2 f_equal.
      rewrite <- (length_map Form.row_id), filter_map_ids, Hal. reflexivity.
    + apply NoDup_filter. exact Hnd.
    + apply Forall_forall. intros x Hx. apply filter_In in Hx.
      rewrite Forall_forall in Hfresh. apply Hfresh. apply Hx.
  - unfold Form.delete_command in Hdel.
    destruct (Z.ltb_spec 1 (Z.of_nat (List.length (Form.entries self)))); [lia|].
    injection Hdel as _ <-. exact Hinv.
Qed.

Lemma form_type_invariant (self : Form.State) (k : nat) (text : string) :
  Form.invariant self -> Form.invariant (Form.type_command self k text).
Proof.
  intros [Hne Hal Hrows Hnd Hfresh].
  constructor; cbn [Form.type_command Form.entries Form.children Form.fresh];
    try assumption.
  - rewrite <- Hal, map_map. apply map_ext. intros child.
    destruct (Nat.eqb (Form.row_id child) k); reflexivity.
  - rewrite <- Hrows, map_map. apply map_ext. intros child.
    destruct (Nat.eqb (Form.row_id child) k); reflexivity.
Qed.

Lemma form_keeps_rows_invariant :
  forall self : Form.State, Form.reachable self -> Form.invariant self.
Proof.
  induction 1 as [|self _ IH|self k t self' _ IH Hin Hdel|self k text _ IH
                 |self text _ IH].
  - exact form_init_invariant.
  - apply form_add_invariant. exact IH.
  - apply (form_delete_invariant self self' k t IH Hin Hdel).
  - apply form_type_invariant. exact IH.
  - destruct IH. constructor; assumption.
Qed.

(** X22: whatever rows the user adds, deletes or edits, the form keeps at
    least one command row, [command_entries] lists the text widgets of
    the rows in the order of the rows, without repetition, and the
    rows stand at the grid rows 0, 1, 2, ... with no gap and no
    clash. *)
Theorem form_keeps_its_rows_in_order :
  forall self : Form.State, Form.reachable self -> Form.invariant self.
Proof. exact form_keeps_rows_invariant. Qed.

Lemma form_keeps_its_rows_in_order_witness :
  Form.invariant (Form.add_command (Form.add_command Form.init)).
Proof.
  apply (form_keeps_its_rows_in_order (Form.add_command (Form.add_command Form.init))).
  apply Form.reach_add, Form.reach_add, Form.reach_init.
Defined.

Lemma find_row (rows : list Form.CommandRow) (r : Form.CommandRow) :
  NoDup (map Form.row_id rows) -> In r rows ->
  find (fun child => Nat.eqb (Form.row_id child) (Form.row_id r)) rows = Some r.
Proof.
  induction rows as [|x rows IH]; intros Hnd Hin; [contradiction|].
  cbn [map] in Hnd. inversion Hnd as [|? ? Hnotin Hnd']; subst.
  cbn [find]. destruct Hin as [->|Hin].
  - rewrite Nat.eqb_refl. reflexivity.
  - destruct (Nat.eqb_spec (Form.row_id x) (Form.row_id r)) as [Heq|_].
    + exfalso. apply Hnotin. rewrite Heq. apply in_map. exact Hin.
    + apply IH; assumption.
Qed.

Lemma form_texts_in_row_order (self : Form.State) :
  Form.invariant self ->
  Gui.command_entries (Form.to_gui self) = map Form.row_text (Form.children self).
Proof.
  intros [_ Hal _ Hnd _]. cbn [Form.to_gui Gui.command_entries].
  rewrite <- Hal in Hnd |- *. rewrite map_map.
  apply map_ext_in. intros r Hr. unfold Form.text_of.
  rewrite (find_row _ r Hnd Hr). reflexivity.
Qed.

Lemma filter_rows_texts (k : nat) (rows : list Form.CommandRow) (text : string) :
  map Form.row_text
      (map (fun child =>
              if Nat.eqb (Form.row_id child) k
              then {| Form.row_id := Form.row_id child;
                      Form.row_grid := Form.row_grid child;
                      Form.row_text := text |}
              else child) rows)
  = map (fun child => if Nat.eqb (Form.row_id child) k then text
                      else Form.row_text child) rows.
Proof.
  rewrite map_map. apply map_ext. intros child.
  destruct (Nat.eqb (Form.row_id child) k); reflexivity.
Qed.

(** X23: deleting the only row of the form is refused with a warning and
    changes nothing; deleting one of several rows removes that row
    only, silently, and keeps the texts of the others, in order, and
    the worker count. *)
Theorem form_delete_command_spec :
  forall (self : Form.State) (k : nat),
    Form.reachable self ->
    In k (Form.entries self) ->
    (Form.entries self = [k] ->
     Form.delete_command self k
     = ([ShowWarning "Warning" "You must have at least one command."], Ok self))
    /\ ((1 < List.length (Form.entries self))%nat ->
        exists self',
          Form.delete_command self k = ([], Ok self')
          /\ Form.entries self'
             = filter (fun x => negb (Nat.eqb x k)) (Form.entries self)
          /\ S (List.length (Form.entries self')) = List.length (Form.entries self)
          /\ ~ In k (Form.entries self')
          /\ Gui.command_entries (Form.to_gui self')
             = map Form.row_text
                   (filter (fun child => negb (Nat.eqb (Form.row_id child) k))
                           (Form.children self))
          /\ Gui.max_workers_var (Form.to_gui self')
             = Gui.max_workers_var (Form.to_gui self)).
Proof.
  intros self k Hreach Hin.
  pose proof (form_keeps_rows_invariant self Hreach) as Hinv.
  split.
  - intros Hone. unfold Form.delete_command. rewrite Hone. reflexivity.
  - intros Hlen.
    pose proof (form_delete_many self k Hinv Hin Hlen) as Hdel.
    eexists. split; [exact Hdel|].
    pose proof (form_delete_invariant self _ k [] Hinv Hin Hdel) as Hinv'.
    destruct Hinv as [Hne Hal Hrows Hnd Hfresh].
    split; [reflexivity|].
    split; [apply (filter_remove_length k _ Hin Hnd)|].
    split.
    + cbn [Form.entries]. intros Hk. apply filter_In in Hk.
      destruct Hk as [_ Hk]. rewrite Nat.eqb_refl in Hk. discriminate.
    + split; [|reflexivity].
      rewrite (form_texts_in_row_order _ Hinv'). cbn [Form.children].
      apply regrid_texts.
Qed.

Lemma form_delete_command_spec_witness :
  Form.delete_command Form.init 0
  = ([ShowWarning "Warning" "You must have at least one command."], Ok Form.init)
  /\ exists self',
       Form.delete_command (Form.add_command Form.init) 0 = ([], Ok self')
       /\ Form.entries self' = [1%nat]
       /\ Gui.command_entries (Form.to_gui self') = [EmptyString].
Proof.
  split.
  - apply (proj1 (form_delete_command_spec Form.init 0 Form.reach_init
                    (or_introl eq_refl))).
    reflexivity.
  - destruct (proj2 (form_delete_command_spec (Form.add_command Form.init) 0
                       (Form.reach_add _ Form.reach_init) (or_introl eq_refl)))
      as [self' [Hdel [Hentries [_ [_ [Htexts _]]]]]].
    + cbn. lia.
    + exists self'. split; [exact Hdel|]. split; [exact Hentries | exact Htexts].
Defined.

(** X24: adding a row and deleting it at once gives the form back as it
    was, rows and grid positions included. *)
Theorem form_add_then_delete :
  forall self : Form.State,
    Form.reachable self ->
    Form.delete_command (Form.add_command self) (Form.fresh self)
    = ([], Ok {| Form.entries := Form.entries self;
                 Form.children := Form.children self;
                 Form.max_workers := Form.max_workers self;
                 Form.fresh := S (Form.fresh self) |}).
Proof.
  intros self Hreach.
  pose proof (form_keeps_rows_invariant self Hreach) as Hinv.
  pose proof (form_add_invariant self Hinv) as Hinv'.
  destruct Hinv as [Hne Hal Hrows Hnd Hfresh].
  rewrite (form_delete_many (Form.add_command self) (Form.fresh self) Hinv').
  - cbn [Form.add_command Form.entries Form.children Form.max_workers Form.fresh].
    do 2 f_equal. f_equal.
    + rewrite filter_app. cbn [filter]. rewrite Nat.eqb_refl. cbn [negb].
      rewrite app_nil_r. apply forallb_filter_id. apply forallb_forall.
      intros x Hx. rewrite Forall_forall in Hfresh. specialize (Hfresh x Hx).
      destruct (Nat.eqb_spec x (Form.fresh self)); [lia | reflexivity].
    + rewrite filter_app. cbn [filter Form.row_id]. rewrite Nat.eqb_refl.
      cbn [negb]. rewrite app_nil_r.
      replace (filter (fun child => negb (Nat.eqb (Form.row_id child) (Form.fresh self)))
                      (Form.children self))
        with (Form.children self).
      * apply (regrid_fixed_from (Form.children self) 0).
        rewrite Hrows. do 2 f_equal.
        rewrite <- Hal, length_map. reflexivity.
      * symmetry. apply forallb_filter_id. apply forallb_forall.
        intros r Hr. rewrite Forall_forall in Hfresh.
        assert (Hid : In (Form.row_id r) (Form.entries self))
          by (rewrite <- Hal; apply in_map; exact Hr).
        specialize (Hfresh _ Hid).
        destruct (Nat.eqb_spec (Form.row_id r) (Form.fresh self));
          [lia | reflexivity].
  - cbn [Form.add_command Form.entries]. apply in_or_app. right. left. reflexivity.
  - cbn [Form.add_command Form.entries]. rewrite length_app. cbn [List.length].
    destruct (Form.entries self); [contradiction | cbn; lia].
Qed.

Lemma form_add_then_delete_witness :
  Form.delete_command (Form.add_command Form.init) 1
  = ([], Ok {| Form.entries := [0%nat];
               Form.children := Form.children Form.init;
               Form.max_workers := "5";
               Form.fresh := 2 |}).
Proof. apply (form_add_then_delete Form.init Form.reach_init). Defined.

(** X25: the commands a run reads from the form are the trimmed texts of
    the rows, from the top row down, without the blank ones. *)
Theorem form_run_reads_rows_in_order :
  forall self : Form.State,
    Form.reachable self ->
    Gui.read_commands (Form.to_gui self)
    = filter (fun c => negb (String.eqb c ""))
             (map (fun child => PyString.strip (Form.row_text child))
                  (Form.children self))
    /\ (List.length (Gui.read_commands (Form.to_gui self))
        <= List.length (Form.children self))%nat.
Proof.
  intros self Hreach.
  pose proof (form_keeps_rows_invariant self Hreach) as Hinv.
  destruct (gui_read_commands_filter (Form.to_gui self)) as [Heq _].
  rewrite Heq, (form_texts_in_row_order self Hinv), map_map.
  split; [reflexivity|].
  etransitivity; [apply filter_length_le|]. rewrite length_map. reflexivity.
Qed.

Lemma form_run_reads_rows_in_order_witness :
  Gui.read_commands
    (Form.to_gui (Form.type_command (Form.add_command Form.init) 1 " ls  "))
  = [Form.default_command; "ls"].
Proof.
  destruct (form_run_reads_rows_in_order
              (Form.type_command (Form.add_command Form.init) 1 " ls  ")) as [H _].
  - apply Form.reach_type, Form.reach_add, Form.reach_init.
  - rewrite H. reflexivity.
Defined.


(** ** More on validation and on the report of the GUI *)

(** X26: [validate_max_workers] never raises: either the field holds an
    integer of at least 1, which is returned with no dialog, or one
    error dialog is shown and [None] is returned. *)
Theorem gui_validate_max_workers_spec :
  forall self : Gui.DockerRunnerGUI,
    (exists n,
        PyString.int (Gui.max_workers_var self) = Ok n /\ 1 <= n
        /\ Gui.validate_max_workers self = ([], Ok (Some n)))
    \/ (exists msg,
           (forall n, PyString.int (Gui.max_workers_var self) = Ok n -> n < 1)
           /\ Gui.validate_max_workers self
              = ([ShowError "Invalid Input"
                    ("Max workers must be a positive integer: " ++ msg)%string],
                 Ok None)).
Proof.
  intros self. unfold Gui.validate_max_workers.
  destruct (PyString.int (Gui.max_workers_var self)) as [n|e] eqn:Hint.
  - unfold lift, bind, try_except. cbn [fst snd].
    destruct (Z.ltb_spec n 1) as [Hn|Hn].
    + right. exists "Max workers must be at least 1". split; [|reflexivity].
      intros n' [= <-]. exact Hn.
    + left. exists n. repeat split. exact Hn.
  - destruct (int_raises_ValueError _ _ Hint) as [msg ->].
    right. exists msg. split; [discriminate | reflexivity].
Qed.

Lemma gui_validate_max_workers_spec_witness :
  (exists n,
      PyString.int " 12 " = Ok n /\ 1 <= n
      /\ Gui.validate_max_workers
           {| Gui.command_entries := []; Gui.max_workers_var := " 12 " |}
         = ([], Ok (Some n)))
  \/ (exists msg,
         (forall n, PyString.int " 12 " = Ok n -> n < 1)
         /\ Gui.validate_max_workers
              {| Gui.command_entries := []; Gui.max_workers_var := " 12 " |}
            = ([ShowError "Invalid Input"
                  ("Max workers must be a positive integer: " ++ msg)%string],
               Ok None)).
Proof.
  apply (gui_validate_max_workers_spec
           {| Gui.command_entries := []; Gui.max_workers_var := " 12 " |}).
Defined.

Lemma enumerate_nth {A} (l : list A) : forall (start : Z) (i : nat) (a : A),
  nth_error l i = Some a -> In (start + Z.of_nat i, a) (Gui.enumerate l start).
Proof.
  induction l as [|x l IH]; intros start i a Hi; [destruct i; discriminate|].
  rewrite enumerate_cons. destruct i as [|i]; cbn [nth_error] in Hi.
  - injection Hi as ->. left. f_equal. lia.
  - right. replace (start + Z.of_nat (S i)) with (start + 1 + Z.of_nat i) by lia.
    apply IH. exact Hi.
Qed.

(** X27: [display_results] numbers the outcomes from 1 in the order of
    the batch: the outcome at position [i] is headed
    [Container i+1 - Command: ] followed by its command. *)
Theorem gui_report_numbers_batch_positions :
  forall (results : list Gui.Outcome) (i : nat) (r : Gui.Outcome),
    nth_error results i = Some r ->
    In (TextInsert ("Container " ++ py_str (Z.of_nat i + 1) ++ " - Command: "
                    ++ ident r ++ Gui.newline)%string)
       (trace (Gui.display_results results)).
Proof.
  intros results i r Hi.
  rewrite gui_report_spec. cbn [trace fst].
  apply in_or_app. left. apply in_map. unfold Report.gui_report.
  apply in_or_app. right. apply in_or_app. left.
  apply in_flat_map. exists (1 + Z.of_nat i, r).
  split; [apply enumerate_nth; exact Hi|].
  unfold Report.gui_block.
  replace (Z.of_nat i + 1) with (1 + Z.of_nat i) by lia.
  destruct (Report.is_success r); left; reflexivity.
Qed.

Lemma gui_report_numbers_batch_positions_witness :
  In (TextInsert ("Container " ++ py_str (Z.of_nat 1 + 1) ++ " - Command: "
                  ++ "b" ++ Gui.newline)%string)
     (trace (Gui.display_results
               [("a", Some "x", None); ("b", None, Some "Error: y")])).
Proof.
  apply (gui_report_numbers_batch_positions
           [("a", Some "x", None); ("b", None, Some "Error: y")]
           1%nat ("b", None, Some "Error: y")).
  reflexivity.
Defined.
